(** * Data-analysis agent notebook: the dataset generator, the query tool
      and the question driver, embedded from
      [all_agents_tutorials/simple_data_analysis_agent_notebook-pydanticai.ipynb].

    The notebook is glue around three collaborators: NumPy's global random
    state, the pandas frame with its expression evaluator [pd.eval], and the
    PydanticAI agent loop.  The glue is embedded as it is written.  A
    collaborator is an interface (a class with the contract its callers
    rely on) or a function argument, and comes with an executable instance:
    for NumPy, the Mersenne Twister and the samplers of its legacy
    generator, which reproduce the rows and the statistics the notebook
    printed; for pandas' evaluator, its outcome on the queries of the
    recorded run, a mean being a float64 sum and division. *)

From Stdlib Require Import ZArith QArith Qround Qpower Qabs.
From Stdlib Require Import List String Ascii Bool Lia Lqa.
From Stdlib Require Import Permutation Sorted DecimalString DecimalZ DecimalPos.
From Stdlib Require Qcanon.
Import ListNotations.

Set Warnings "-register-all".

Local Open Scope list_scope.
Local Open Scope string_scope.
Local Open Scope Z_scope.

(** ** Python values, exceptions and printing *)

(** The exception classes that occur.  [KeyboardInterrupt], [SystemExit] and
    [GeneratorExit] derive from [BaseException] only; all the others derive
    from [Exception]. *)
Inductive exc_class : Set :=
  | KeyError | ValueError | TypeError | SyntaxError | NameError
  | IndexError | AttributeError
  | ModelRetry | UnexpectedModelBehavior
  | KeyboardInterrupt | SystemExit | GeneratorExit.

(** An exception object: its class, [str(e)], and [__cause__] (set by
    [raise ... from e]). *)
Inductive exn : Type :=
  | Exn (cls : exc_class) (message : string) (cause : option exn).

Definition exn_class (e : exn) : exc_class :=
  match e with Exn c _ _ => c end.

Definition exn_message (e : exn) : string :=
  match e with Exn _ m _ => m end.

Definition exn_cause (e : exn) : option exn :=
  match e with Exn _ _ c => c end.

(** [isinstance(e, Exception)]: what an [except Exception] clause handles. *)
Definition is_Exception (e : exn) : bool :=
  match exn_class e with
  | KeyboardInterrupt | SystemExit | GeneratorExit => false
  | _ => true
  end.

(** A call either returns a value or raises. *)
Inductive outcome (A : Type) : Type :=
  | Return (a : A)
  | Raise (e : exn).
Arguments Return {A} a.
Arguments Raise {A} e.

Definition returned {A} (r : outcome A) : bool :=
  match r with Return _ => true | Raise _ => false end.

(** The values a query yields: Python ints, floats (as exact rationals),
    strings, lists, and any other object, known by its [str()] text. *)
Inductive pyobj : Type :=
  | PyInt (z : Z)
  | PyFloat (q : Q)
  | PyStr (s : string)
  | PyList (items : list pyobj)
  | PyObject (text : string).

(** [str(n)] of an int: its decimal numeral, with a leading minus sign. *)
Definition str_int (z : Z) : string :=
  NilZero.string_of_int (Z.to_int z).

Definition quote (s : string) : string := "'" ++ s ++ "'".

Fixpoint join (sep : string) (l : list string) : string :=
  match l with
  | [] => ""
  | [x] => x
  | x :: rest => x ++ sep ++ join sep rest
  end.

Section Str.
(** Python's formatting of a float, not modelled digit by digit. *)
Variable float_repr : Q -> string.

(** [repr(v)]: as [str(v)], but a string is quoted. *)
Fixpoint py_repr (v : pyobj) : string :=
  match v with
  | PyInt z => str_int z
  | PyFloat q => float_repr q
  | PyStr s => quote s
  | PyList items => "[" ++ join ", " (map py_repr items) ++ "]"
  | PyObject text => text
  end.

(** [str(v)]. *)
Definition py_str (v : pyobj) : string :=
  match v with
  | PyStr s => s
  | _ => py_repr v
  end.
End Str.

(** Substring test, for statements about what a message contains. *)
Fixpoint is_substring (s t : string) : bool :=
  prefix s t ||
  match t with
  | EmptyString => false
  | String _ t' => is_substring s t'
  end.

(** ** Load environment (cell 4)

    [os.environ] maps variable names to strings.  [os.getenv(key)] is
    [None] for a variable that is not set, and [os.environ[key] = value]
    accepts a string only. *)
Definition environ : Type := list (string * string).

(** [os.getenv(key)]. *)
Fixpoint getenv (key : string) (env : environ) : option string :=
  match env with
  | [] => None
  | (k, v) :: rest => if String.eqb k key then Some v else getenv key rest
  end.

(** The environment with [key] set to the string [value]. *)
Fixpoint putenv (key value : string) (env : environ) : environ :=
  match env with
  | [] => [(key, value)]
  | (k, v) :: rest =>
      if String.eqb k key then (k, value) :: rest
      else (k, v) :: putenv key value rest
  end.

(** [os.environ[key] = value], where [value] may be [None]. *)
Definition environ_setitem (key : string) (value : option string)
    (env : environ) : outcome unit * environ :=
  match value with
  | Some v => (Return tt, putenv key v env)
  | None => (Raise (Exn TypeError "str expected, not NoneType" None), env)
  end.

Definition OPENAI_API_KEY : string := "OPENAI_API_KEY".

Definition LOGFIRE_IGNORE_NO_CONFIG : string := "LOGFIRE_IGNORE_NO_CONFIG".

Section LoadEnvironment.
(** [load_dotenv()]: python-dotenv reads the .env file into the
    environment. *)
Variable load_dotenv : environ -> environ.

(** The three statements of the cell, in order; an exception ends it. *)
Definition load_environment (env : environ) : outcome unit * environ :=
  let env1 := load_dotenv env in
  match environ_setitem OPENAI_API_KEY (getenv OPENAI_API_KEY env1) env1 with
  | (Raise e, env2) => (Raise e, env2)
  | (Return _, env2) => environ_setitem LOGFIRE_IGNORE_NO_CONFIG (Some "1") env2
  end.
End LoadEnvironment.

(** ** Dates

    [datetime(y, m, d)] at midnight is known by its proleptic Gregorian
    ordinal (CPython's [_ymd2ord]: day 1 is 0001-01-01); adding
    [timedelta(days=k)] adds [k] to the ordinal. *)

Definition is_leap (y : Z) : bool :=
  (y mod 4 =? 0) && (negb (y mod 100 =? 0) || (y mod 400 =? 0)).

Definition days_before_year (y : Z) : Z :=
  let p := y - 1 in p * 365 + p / 4 - p / 100 + p / 400.

Definition days_in_month (y m : Z) : Z :=
  if m =? 2 then (if is_leap y then 29 else 28)
  else if (m =? 4) || (m =? 6) || (m =? 9) || (m =? 11) then 30
  else 31.

Definition days_before_month (y m : Z) : Z :=
  fold_right Z.add 0
    (map (fun k => days_in_month y (Z.of_nat k)) (seq 1 (Z.to_nat (m - 1)))).

Definition ymd2ord (y m d : Z) : Z :=
  days_before_year y + days_before_month y m + d.

Inductive date : Set := Date (ordinal : Z).

Definition ordinal (d : date) : Z := match d with Date o => o end.

Definition datetime (y m d : Z) : date := Date (ymd2ord y m d).

Definition timedelta (days : Z) : Z := days.

Definition date_add (d : date) (delta : Z) : date := Date (ordinal d + delta).

(** ** The pandas frame *)

(** A cell: a missing value, a timestamp, a string, an int64 or a float64
    (floats are exact rationals here). *)
Inductive cell : Type :=
  | NaN
  | Timestamp (d : date)
  | Str (s : string)
  | Int (z : Z)
  | Float (q : Q).

Definition column : Type := list cell.

(** A frame is its columns, in insertion order, as [pd.DataFrame(dict)]
    builds it. *)
Record DataFrame : Type := mkDataFrame { df_columns : list (string * column) }.

Definition column_names (d : DataFrame) : list string :=
  map fst (df_columns d).

(** [len(df)]. *)
Definition nrows (d : DataFrame) : nat :=
  match df_columns d with
  | [] => 0%nat
  | (_, c) :: _ => List.length c
  end.

Fixpoint lookup_column (name : string) (cols : list (string * column))
  : option column :=
  match cols with
  | [] => None
  | (n, c) :: rest => if String.eqb n name then Some c else lookup_column name rest
  end.

(** [df[name]]: the labels are compared as they are, letter case included. *)
Definition get_column (name : string) (d : DataFrame) : option column :=
  lookup_column name (df_columns d).

(** The Record at position [i]: one cell per column. *)
Definition record_at (i : nat) (d : DataFrame) : list (string * cell) :=
  map (fun nc => (fst nc, nth i (snd nc) NaN)) (df_columns d).

Definition records (d : DataFrame) : list (list (string * cell)) :=
  map (fun i => record_at i d) (seq 0 (nrows d)).

Definition same_length (cols : list (string * column)) : bool :=
  match cols with
  | [] => true
  | (_, c) :: rest =>
      forallb (fun nc => Nat.eqb (List.length (snd nc)) (List.length c)) rest
  end.

(** [pd.DataFrame(data)] for a dict of arrays. *)
Definition pd_DataFrame (data : list (string * column)) : outcome DataFrame :=
  if same_length data then Return (mkDataFrame data)
  else Raise (Exn ValueError "All arrays must be of the same length" None).

(** The order [sort_values] sorts by: timestamps by date, numbers by value,
    strings lexicographically, a missing value last. *)
Definition cell_kind (c : cell) : Z :=
  match c with
  | Timestamp _ => 0
  | Int _ | Float _ => 1
  | Str _ => 2
  | NaN => 3
  end.

Definition cell_number (c : cell) : Q :=
  match c with
  | Timestamp d => inject_Z (ordinal d)
  | Int z => inject_Z z
  | Float q => q
  | _ => 0%Q
  end.

Definition cell_text (c : cell) : string :=
  match c with Str s => s | _ => "" end.

Definition cell_leb (a b : cell) : bool :=
  if cell_kind a =? cell_kind b
  then if cell_kind a =? 2 then String.leb (cell_text a) (cell_text b)
       else Qle_bool (cell_number a) (cell_number b)
  else cell_kind a <? cell_kind b.

(** Values of one kind, missing values apart: the columns pandas sorts
    without a TypeError. *)
Definition comparable (keys : column) : bool :=
  match filter (fun c => negb (cell_kind c =? 3)) keys with
  | [] => true
  | c :: rest => forallb (fun c' => cell_kind c' =? cell_kind c) rest
  end.

(** [col.take(order)]. *)
Definition take (order : list nat) (c : column) : column :=
  map (fun i => nth i c NaN) order.

(** The sorting routine behind [sort_values]: pandas picks the algorithm
    ([kind='quicksort'] by default).  Callers rely on this much: the result
    lists every position once, and the keys read along it do not decrease. *)
Class Argsort : Type := {
  argsort : column -> list nat;
  argsort_perm : forall keys, Permutation (argsort keys) (seq 0 (List.length keys));
  argsort_sorted : forall keys,
    Sorted (fun a b => cell_leb a b = true) (take (argsort keys) keys)
}.

(** [df.sort_values(by)]: a new frame with every column reordered. *)
Definition sort_values `{Argsort} (by_ : string) (d : DataFrame)
  : outcome DataFrame :=
  match get_column by_ d with
  | None => Raise (Exn KeyError (quote by_) None)
  | Some keys =>
      if comparable keys
      then let order := argsort keys in
           Return (mkDataFrame
                     (map (fun nc => (fst nc, take order (snd nc))) (df_columns d)))
      else Raise (Exn TypeError "'<' not supported between instances" None)
  end.

(** ** NumPy's global random state

    The draws the notebook uses, as functions of the state they read and
    advance.  The contract is what NumPy documents for valid arguments: [n]
    samples, each an element of the population ([choice]), an integer of
    [low, high) ([randint]) or a number of [low, high) ([uniform]). *)
Class RandomState : Type := {
  rng : Type;
  (** the state [np.random.seed(s)] installs, whatever the state before *)
  seeded : Z -> rng;
  choice : forall {A : Type}, list A -> nat -> rng -> list A * rng;
  randint : Z -> Z -> nat -> rng -> list Z * rng;
  uniform : Q -> Q -> nat -> rng -> list Q * rng;
  choice_length : forall (A : Type) (a : list A) n g,
    a <> [] -> List.length (fst (choice a n g)) = n;
  choice_In : forall (A : Type) (a : list A) n g x,
    In x (fst (choice a n g)) -> In x a;
  randint_length : forall low high n g,
    low < high -> List.length (fst (randint low high n g)) = n;
  randint_range : forall low high n g x,
    In x (fst (randint low high n g)) -> low <= x < high;
  uniform_length : forall low high n g,
    (low < high)%Q -> List.length (fst (uniform low high n g)) = n;
  uniform_range : forall low high n g x,
    (low < high)%Q -> In x (fst (uniform low high n g)) ->
    (low <= x)%Q /\ (x < high)%Q
}.

(** [np.rint]: the nearest integer, a tie going to the even one. *)
Definition rint (x : Q) : Z :=
  let f := Qfloor x in
  match Qcompare (x - inject_Z f) (1 # 2) with
  | Lt => f
  | Gt => f + 1
  | Eq => if Z.even f then f else f + 1
  end.

(** [x.round(decimals)]: scale, round to the nearest integer, scale back. *)
Definition np_round (decimals : nat) (x : Q) : Q :=
  let s := inject_Z (10 ^ Z.of_nat decimals) in
  (inject_Z (rint (x * s)) / s)%Q.

(** ** Generate Sample Data (notebook cell 5) *)

Definition n_rows : nat := 1000.

Definition start_date : date := datetime 2022 1 1.

Definition dates (n : nat) : list date :=
  map (fun i => date_add start_date (timedelta (Z.of_nat i))) (seq 0 n).

Definition makes : list string :=
  ["Toyota"; "Honda"; "Ford"; "Chevrolet"; "Nissan"; "BMW"; "Mercedes";
   "Audi"; "Hyundai"; "Kia"].

Definition models : list string :=
  ["Sedan"; "SUV"; "Truck"; "Hatchback"; "Coupe"; "Van"].

Definition colors : list string :=
  ["Red"; "Blue"; "Black"; "White"; "Silver"; "Gray"; "Green"].

Definition engine_sizes : list Q :=
  [16 # 10; 2 # 1; 25 # 10; 3 # 1; 35 # 10; 4 # 1]%Q.

Definition sales_people : list string :=
  ["Alice"; "Bob"; "Charlie"; "David"; "Eva"].

Section Generation.
Context {RS : RandomState} {AS : Argsort}.

(** The dict [data]: the values are evaluated in the order written, each
    draw starting from the state the one before left.  Returns the dict
    and the state after the last draw. *)
Definition data (n : nat) (g : rng) : list (string * column) * rng :=
  let make := choice makes n g in
  let model := choice models n (snd make) in
  let color := choice colors n (snd model) in
  let year := randint 2015 2023 n (snd color) in
  let price := uniform 20000 80000 n (snd year) in
  let mileage := uniform 0 100000 n (snd price) in
  let engine := choice engine_sizes n (snd mileage) in
  let fuel := uniform 20 40 n (snd engine) in
  let person := choice sales_people n (snd fuel) in
  ([ ("Date", map Timestamp (dates n));
     ("Make", map Str (fst make));
     ("Model", map Str (fst model));
     ("Color", map Str (fst color));
     ("Year", map Int (fst year));
     ("Price", map (fun x => Float (np_round 2 x)) (fst price));
     ("Mileage", map (fun x => Float (np_round 0 x)) (fst mileage));
     ("EngineSize", map Float (fst engine));
     ("FuelEfficiency", map (fun x => Float (np_round 1 x)) (fst fuel));
     ("SalesPerson", map Str (fst person)) ],
   snd person).

(** [pd.DataFrame(data).sort_values('Date')], with the state the draws
    left behind. *)
Definition generate (n : nat) (g : rng) : outcome DataFrame * rng :=
  let d := data n g in
  (match pd_DataFrame (fst d) with
   | Return frame => sort_values "Date" frame
   | Raise e => Raise e
   end,
   snd d).

(** The notebook's run: [np.random.seed(42)] in cell 2, then cell 5 with
    [n_rows = 1000]. *)
Definition df : outcome DataFrame := fst (generate n_rows (seeded 42)).
End Generation.

(** ** The schema of the generated frame

    What cell 5 makes of each column: its name and the values it admits, as
    the draws and the roundings of [data] fix them. *)
Inductive dtype : Type :=
  | datetime64                                    (* a timestamp *)
  | object_of (values : list string)              (* a string of the enumeration *)
  | int64_in (low high : Z)                       (* an integer, bounds included *)
  | float64_in (low high : Z) (decimals : nat)    (* a rounded number, bounds included *)
  | float64_of (values : list Q).                 (* a number of the enumeration *)

Definition schema : list (string * dtype) :=
  [ ("Date", datetime64);
    ("Make", object_of makes);
    ("Model", object_of models);
    ("Color", object_of colors);
    ("Year", int64_in 2015 2022);
    ("Price", float64_in 20000 80000 2);
    ("Mileage", float64_in 0 100000 0);
    ("EngineSize", float64_of engine_sizes);
    ("FuelEfficiency", float64_in 20 40 1);
    ("SalesPerson", object_of sales_people) ].

(** [q] has at most [d] decimals: [q * 10^d] is an integer. *)
Definition has_decimals (d : nat) (q : Q) : bool :=
  Pos.eqb (Qden (Qred (q * inject_Z (10 ^ Z.of_nat d)))) 1.

(** The cell is present (not missing) and of the column's type. *)
Definition cell_conforms (t : dtype) (c : cell) : bool :=
  match t, c with
  | datetime64, Timestamp _ => true
  | object_of values, Str s => existsb (String.eqb s) values
  | int64_in low high, Int z => (low <=? z) && (z <=? high)
  | float64_in low high d, Float q =>
      Qle_bool (inject_Z low) q && Qle_bool q (inject_Z high) && has_decimals d q
  | float64_of values, Float q => existsb (Qeq_bool q) values
  | _, _ => false
  end.

Fixpoint record_conforms (r : list (string * cell)) (s : list (string * dtype))
  : bool :=
  match r, s with
  | [], [] => true
  | (name, c) :: r', (name', t) :: s' =>
      String.eqb name name' && cell_conforms t c && record_conforms r' s'
  | _, _ => false
  end.

(** The field of a Record. *)
Fixpoint field (name : string) (r : list (string * cell)) : option cell :=
  match r with
  | [] => None
  | (n, c) :: rest => if String.eqb n name then Some c else field name rest
  end.

(** [np.random.seed(s)]: the global state is replaced, not mixed. *)
Definition np_random_seed {RS : RandomState} (s : Z) (g : rng) : rng :=
  seeded s.

(** ** The process: standard output and the shared frame

    Python passes objects by reference.  The notebook creates one frame
    object, bound to the global [df]; [Deps(df=df)] stores a reference to
    that object, not a copy, so the object's state is part of the world and
    every holder of the reference sees the same state. *)
Inductive object_ref : Set := global_df.

Record World : Type := mkWorld {
  stdout : list string;      (* the lines printed so far, oldest first *)
  frame : DataFrame          (* the state of the object behind [global_df] *)
}.

Definition print (line : string) (w : World) : World :=
  mkWorld (stdout w ++ [line])%list (frame w).

Definition deref (r : object_ref) (w : World) : DataFrame := frame w.

(** The world once the object behind [r] has reached the state [d]: the
    evaluator works on the object in place. *)
Definition mutated (r : object_ref) (d : DataFrame) (w : World) : World :=
  mkWorld (stdout w) d.

(** Cell 6: the dependency holder. *)
Module Deps.
Record t : Set := mk { df : object_ref }.
End Deps.

Record RunContext : Set := mkRunContext { deps : Deps.t }.

(** Cell 7: the agent's configuration. *)
Record Agent : Set := mkAgent {
  model : string;
  system_prompt : string;
  retries : nat
}.

Definition agent : Agent :=
  mkAgent "openai:gpt-4o-mini"
    "You are an AI assistant that helps extract information from a pandas DataFrame.
    If asked about columns, be sure to check the column names first.
    Be concise in your answers."
    10.

(** ** The query tool (cell 8) *)

Section Tool.
Variable float_repr : Q -> string.

(** [pd.eval(query, target=frame)]: the evaluator receives the frame
    object itself; it yields a value or raises, and leaves the object in
    some state. *)
Variable pd_eval : string -> DataFrame -> outcome pyobj * DataFrame.

Definition retry_message (query : string) (e : exn) : string :=
  "query: `" ++ query ++ "` is not a valid query. Reason: `"
    ++ exn_message e ++ "`".

Definition trace_line (query : string) : string :=
  "Running query: `" ++ query ++ "`".

Definition df_query (ctx : RunContext) (query : string) (w : World)
  : outcome string * World :=
  let w1 := print (trace_line query) w in
  let target := Deps.df (deps ctx) in
  let r := pd_eval query (deref target w1) in
  let w2 := mutated target (snd r) w1 in
  match fst r with
  | Return v => (Return (py_str float_repr v), w2)
  | Raise e =>
      if is_Exception e
      then (Raise (Exn ModelRetry (retry_message query e) (Some e)), w2)
      else (Raise e, w2)
  end.
End Tool.

(** ** The agent run and the question driver (cell 9) *)

(** The messages of a run.  A structured response carries the model's tool
    call and has no [content]. *)
Inductive Message : Set :=
  | UserPrompt (content : string)
  | ToolReturn (content : string)
  | RetryPrompt (content : string)
  | ModelTextResponse (content : string)
  | ModelStructuredResponse (query : string).

Record RunResult : Set := mkRunResult { new_messages : list Message }.

(** [m.content]. *)
Definition content_of (m : Message) : outcome string :=
  match m with
  | UserPrompt c | ToolReturn c | RetryPrompt c | ModelTextResponse c => Return c
  | ModelStructuredResponse _ =>
      Raise (Exn AttributeError
               "'ModelStructuredResponse' object has no attribute 'content'" None)
  end.

(** [l[-1]]. *)
Definition last_item {A : Type} (l : list A) : outcome A :=
  match rev l with
  | [] => Raise (Exn IndexError "list index out of range" None)
  | x :: _ => Return x
  end.

(** [response.new_messages()[-1].content]. *)
Definition last_content (response : RunResult) : outcome string :=
  match last_item (new_messages response) with
  | Raise e => Raise e
  | Return m => content_of m
  end.

Section Driver.
(** [agent.run_sync(question, deps=deps)]: the collaborator's entry point,
    whatever it does inside. *)
Variable run_sync : string -> Deps.t -> World -> outcome RunResult * World.

Definition ask_agent (question : string) (w : World) : outcome unit * World :=
  let deps := Deps.mk global_df in
  let w1 := print ("Question: " ++ question) w in
  match run_sync question deps w1 with
  | (Raise e, w2) => (Raise e, w2)
  | (Return response, w2) =>
      match last_content response with
      | Raise e => (Raise e, w2)
      | Return answer =>
          let w3 := print ("Answer: " ++ answer) w2 in
          (Return tt, print "---" w3)
      end
  end.
End Driver.

(** ** Example questions (cell 10)

    The cell asks its questions one after the other; an exception in one
    ends the cell. *)
Section Questions.
Variable run_sync : string -> Deps.t -> World -> outcome RunResult * World.

Fixpoint ask_questions (questions : list string) (w : World)
  : outcome unit * World :=
  match questions with
  | [] => (Return tt, w)
  | question :: rest =>
      match ask_agent run_sync question w with
      | (Raise e, w') => (Raise e, w')
      | (Return _, w') => ask_questions rest w'
      end
  end.
End Questions.

Definition example_questions : list string :=
  [ "What are the column names in this dataset?";
    "How many rows are in this dataset?";
    "What is the average price of cars sold?" ].

(** ** The agent loop and its retry budget

    PydanticAI's [Agent] is a collaborator.  What the notebook configures is
    the tool retry budget, [retries=10]: the loop keeps a failure counter
    per tool, increments it when the tool raises [ModelRetry], gives up with
    [UnexpectedModelBehavior] once the counter exceeds [retries], sends the
    diagnostic back to the model as a retry prompt otherwise, and resets the
    counter when the tool returns.  Any other exception of the tool ends the
    run.  The model answers every request with a text (the final answer) or
    a call of the tool. *)
Inductive reply : Set :=
  | Answer (text : string)
  | Call (query : string).

Record Run : Type := mkRun {
  result : option (outcome RunResult);  (* [None]: still running, out of fuel *)
  invocations : nat;                    (* calls of the tool so far *)
  world : World
}.

Section AgentLoop.
Variable llm : list Message -> reply.
Variable tool : RunContext -> string -> World -> outcome string * World.

Fixpoint run_loop (fuel : nat) (a : Agent) (ctx : RunContext)
    (current_retry calls : nat) (messages : list Message) (w : World) : Run :=
  match fuel with
  | O => mkRun None calls w
  | S fuel' =>
      match llm messages with
      | Answer text =>
          mkRun (Some (Return (mkRunResult (messages ++ [ModelTextResponse text])%list)))
                calls w
      | Call query =>
          let asked := (messages ++ [ModelStructuredResponse query])%list in
          let r := tool ctx query w in
          match fst r with
          | Return text =>
              run_loop fuel' a ctx 0 (S calls) (asked ++ [ToolReturn text])%list (snd r)
          | Raise e =>
              match exn_class e with
              | ModelRetry =>
                  if (retries a <? S current_retry)%nat
                  then mkRun (Some (Raise (Exn UnexpectedModelBehavior
                                ("Tool exceeded max retries count of "
                                   ++ str_int (Z.of_nat (retries a)))
                                (Some e))))
                             (S calls) (snd r)
                  else run_loop fuel' a ctx (S current_retry) (S calls)
                         (asked ++ [RetryPrompt (exn_message e)])%list (snd r)
              | _ => mkRun (Some (Raise e)) (S calls) (snd r)
              end
          end
      end
  end.

(** [a.run_sync(question, deps=deps)], given enough steps. *)
Definition run (fuel : nat) (a : Agent) (question : string) (d : Deps.t)
    (w : World) : Run :=
  run_loop fuel a (mkRunContext d) 0 0 [UserPrompt question] w.
End AgentLoop.

(** ** Executable instances of the collaborators *)

Definition dquote : string := String (ascii_of_nat 34) EmptyString.

Definition cell_is_number (c : cell) : bool :=
  match c with Int _ | Float _ => true | _ => false end.

Definition cell_is_missing (c : cell) : bool :=
  match c with NaN => true | _ => false end.

(** ** float64 arithmetic

    A float64 is the rational it stands for.  [binary64] rounds a rational
    to the nearest number with a 53-bit significand, a tie going to the
    even significand, as IEEE 754 does after every operation; the range of
    the exponent is not modelled (no overflow, no subnormal numbers), the
    numbers of the notebook being far from both ends. *)
Definition pow2 (e : Z) : Q := (2 ^ e)%Q.

(** For a positive [x], the integer [e] with [2^e <= x < 2^(e+1)]. *)
Definition Qlog2 (x : Q) : Z :=
  let e := Z.log2 (Qnum x) - Z.log2 (Zpos (Qden x)) in
  if Qle_bool (pow2 e) x then e else e - 1.

Definition binary64_pos (x : Q) : Q :=
  let e := Qlog2 x - 52 in
  Qred (inject_Z (rint (x / pow2 e)) * pow2 e).

Definition binary64 (x : Q) : Q :=
  match Qcompare x 0 with
  | Eq => 0%Q
  | Gt => binary64_pos x
  | Lt => Qopp (binary64_pos (Qopp x))
  end.

(** [a + b] and [a / b] on float64 operands. *)
Definition fadd (a b : Q) : Q := binary64 (a + b).

Definition fdiv (a b : Q) : Q := binary64 (a / b).



(** The order in which a sum adds its terms: float64 addition is not
    associative, so the order is part of the result. *)
Inductive summation : Type :=
  | Term (x : Q)
  | Plus (l r : summation).

Fixpoint terms (s : summation) : list Q :=
  match s with
  | Term x => [x]
  | Plus l r => terms l ++ terms r
  end.


Fixpoint float_sum (s : summation) : Q :=
  match s with
  | Term x => x
  | Plus l r => fadd (float_sum l) (float_sum r)
  end.

(** The summation routine behind [Series.mean]: NumPy's pairwise sum, or
    bottleneck's loop where that package is installed.  Callers rely on
    this much: every term is added once. *)
Class Summation : Type := {
  sum_order : Q -> list Q -> summation;
  sum_order_terms : forall x l, Permutation (terms (sum_order x l)) (x :: l)
}.

(** [values.sum()] on float64 values. *)
Definition float64_sum {S : Summation} (l : list Q) : Q :=
  match l with
  | [] => 0%Q
  | x :: rest => float_sum (sum_order x rest)
  end.


(** A loop that adds the terms to an accumulator one after the other. *)
Definition add_each (s : summation) (l : list Q) : summation :=
  fold_left (fun acc x => Plus acc (Term x)) l s.

Definition from_first (a : list Q) : summation :=
  match a with
  | [] => Term 0%Q
  | x :: rest => add_each (Term x) rest
  end.

(** NumPy's [pairwise_sum] (the inner loop of [np.add.reduce]): fewer than
    8 terms are added in a loop; up to 128 terms go to 8 accumulators, row
    of 8 by row of 8, the accumulators are added up as a tree and the
    terms past the last full row are added to the result; more terms are
    split in two at a multiple of 8, each part is summed and the two sums
    are added. *)
Definition accumulate (r : list summation) (row : list Q) : list summation :=
  map (fun p => Plus (fst p) (Term (snd p))) (combine r row).

Fixpoint add_rows (rows : nat) (r : list summation) (a : list Q)
  : list summation * list Q :=
  match rows with
  | O => (r, a)
  | S k => add_rows k (accumulate r (firstn 8 a)) (skipn 8 a)
  end.

Definition unrolled (a : list Q) : summation :=
  let n := List.length a in
  let r := add_rows (n / 8 - 1) (map Term (firstn 8 a)) (skipn 8 a) in
  match fst r with
  | [r0; r1; r2; r3; r4; r5; r6; r7] =>
      add_each (Plus (Plus (Plus r0 r1) (Plus r2 r3))
                     (Plus (Plus r4 r5) (Plus r6 r7)))
               (snd r)
  | _ => from_first a
  end.

Fixpoint pairwise_sum (fuel : nat) (a : list Q) : summation :=
  let n := List.length a in
  if (n <? 8)%nat then from_first a
  else if (n <=? 128)%nat then unrolled a
  else match fuel with
       | O => from_first a
       | S fuel' =>
           let n2 := (n / 2 - (n / 2) mod 8)%nat in
           Plus (pairwise_sum fuel' (firstn n2 a))
                (pairwise_sum fuel' (skipn n2 a))
       end.

Lemma add_each_terms l : forall s, terms (add_each s l) = (terms s ++ l)%list.
Proof.
  unfold add_each. induction l as [|x l IH]; intros s; simpl.
  - now rewrite app_nil_r.
  - rewrite IH. simpl. now rewrite <- app_assoc.
Qed.

Lemma from_first_terms a : a <> [] -> terms (from_first a) = a.
Proof.
  destruct a as [|x rest]; [congruence|]. intros _.
  unfold from_first. now rewrite add_each_terms.
Qed.

Lemma accumulate_length r row :
  List.length r = List.length row -> List.length (accumulate r row) = List.length r.
Proof.
  intros H. unfold accumulate. rewrite length_map, length_combine. lia.
Qed.

Lemma accumulate_terms r : forall row,
  List.length r = List.length row ->
  Permutation (List.concat (map terms (accumulate r row)))
              (List.concat (map terms r) ++ row)%list.
Proof.
  unfold accumulate.
  induction r as [|s r IH]; intros [|x row] H; simpl in *; try discriminate.
  - constructor.
  - rewrite (IH row) by lia. rewrite <- !app_assoc.
    apply Permutation_app_head. simpl.
    apply Permutation_cons_app. reflexivity.
Qed.

Lemma add_rows_terms k : forall r a,
  List.length r = 8%nat ->
  (8 * k <= List.length a)%nat ->
  List.length (fst (add_rows k r a)) = 8%nat
  /\ Permutation
       (List.concat (map terms (fst (add_rows k r a))) ++ snd (add_rows k r a))%list
       (List.concat (map terms r) ++ a)%list.
Proof.
  induction k as [|k IH]; intros r a Hr Ha; simpl.
  - split; [exact Hr|reflexivity].
  - assert (Hrow : List.length (firstn 8 a) = 8%nat)
      by (rewrite length_firstn; lia).
    destruct (IH (accumulate r (firstn 8 a)) (skipn 8 a)) as [Hlen HP].
    + rewrite accumulate_length; lia.
    + rewrite length_skipn. lia.
    + split; [exact Hlen|].
      rewrite HP, accumulate_terms by lia.
      rewrite <- app_assoc. now rewrite firstn_skipn.
Qed.

Lemma unrolled_terms a :
  (8 <= List.length a)%nat -> Permutation (terms (unrolled a)) a.
Proof.
  intros Hn. unfold unrolled.
  assert (H : let r := add_rows (List.length a / 8 - 1)
                         (map Term (firstn 8 a)) (skipn 8 a) in
              List.length (fst r) = 8%nat
              /\ Permutation (List.concat (map terms (fst r)) ++ snd r)%list a).
  { destruct (add_rows_terms (List.length a / 8 - 1)
                (map Term (firstn 8 a)) (skipn 8 a)) as [Hlen HP].
    - rewrite length_map, length_firstn. lia.
    - rewrite length_skipn.
      pose proof (Nat.Div0.mul_div_le (List.length a) 8). lia.
    - split; [exact Hlen|]. cbv zeta. rewrite HP.
      assert (E : List.concat (map terms (map Term (firstn 8 a))) = firstn 8 a).
      { clear. induction (firstn 8 a) as [|x l IH]; simpl; [reflexivity|].
        now rewrite IH. }
      now rewrite E, firstn_skipn. }
  destruct (add_rows (List.length a / 8 - 1) (map Term (firstn 8 a)) (skipn 8 a))
    as [rs rest].
  cbn [fst snd] in *. destruct H as [Hlen HP].
  destruct rs as [|r0 [|r1 [|r2 [|r3 [|r4 [|r5 [|r6 [|r7 [|r8 rs]]]]]]]]];
    simpl in Hlen; try discriminate.
  rewrite add_each_terms. rewrite <- HP.
  cbn [terms map List.concat]. rewrite app_nil_r, <- !app_assoc. reflexivity.
Qed.

Lemma pairwise_sum_eq fuel a :
  pairwise_sum fuel a
  = if (List.length a <? 8)%nat then from_first a
    else if (List.length a <=? 128)%nat then unrolled a
    else match fuel with
         | O => from_first a
         | S fuel' =>
             let n2 := (List.length a / 2 - (List.length a / 2) mod 8)%nat in
             Plus (pairwise_sum fuel' (firstn n2 a))
                  (pairwise_sum fuel' (skipn n2 a))
         end.
Proof. destruct fuel; reflexivity. Qed.

Lemma pairwise_sum_terms fuel : forall a,
  a <> [] -> Permutation (terms (pairwise_sum fuel a)) a.
Proof.
  induction fuel as [|fuel IH]; intros a Ha; rewrite pairwise_sum_eq;
    (destruct (Nat.ltb_spec (List.length a) 8);
       [now rewrite from_first_terms|]);
    (destruct (Nat.leb_spec (List.length a) 128); [now apply unrolled_terms|]).
  - now rewrite from_first_terms.
  - cbv zeta.
    set (n2 := (List.length a / 2 - (List.length a / 2) mod 8)%nat).
    assert (H2 : (0 < n2 < List.length a)%nat).
    { unfold n2.
      pose proof (Nat.mod_upper_bound (List.length a / 2) 8).
      pose proof (Nat.Div0.mul_div_le (List.length a) 2).
      assert (64 <= List.length a / 2)%nat
        by (apply Nat.div_le_lower_bound; lia).
      lia. }
    cbn [terms]. rewrite (IH (firstn n2 a)), (IH (skipn n2 a)).
    + now rewrite firstn_skipn.
    + intros E. apply (f_equal (@List.length Q)) in E.
      rewrite length_skipn in E. simpl in E. lia.
    + intros E. apply (f_equal (@List.length Q)) in E.
      rewrite length_firstn in E. simpl in E. lia.
Qed.

Lemma left_to_right_terms x l :
  Permutation (terms (add_each (Term x) l)) (x :: l).
Proof. now rewrite add_each_terms. Qed.

Lemma numpy_pairwise_terms x l :
  Permutation (terms (pairwise_sum (List.length l) (x :: l))) (x :: l).
Proof. apply pairwise_sum_terms. discriminate. Qed.

(** A plain loop, as bottleneck's [nanmean] and Python's [sum] run it. *)
Definition left_to_right : Summation := {|
  sum_order x l := add_each (Term x) l;
  sum_order_terms := left_to_right_terms
|}.

(** NumPy's sum; the recursion halves more than 128 terms, so that as many
    steps as there are terms are enough. *)
Definition numpy_pairwise : Summation := {|
  sum_order x l := pairwise_sum (List.length l) (x :: l);
  sum_order_terms := numpy_pairwise_terms
|}.

(** The sum of a list of numbers with exact additions, kept in lowest
    terms. *)
Definition Qsum (l : list Q) : Q :=
  fold_right (fun x total => Qred (x + total)) 0%Q l.

(** The float64 values of the cells of a column: a float64 cell holds the
    decimal number it was rounded to, and stands for the float64 nearest
    to it. *)
Definition float64_values (c : column) : list Q :=
  map (fun x => binary64 (cell_number x)) c.

(** [Series.mean()] as pandas computes it: the float64 sum of the values,
    divided in float64 by their count. *)
Definition mean {S : Summation} (c : column) : Q :=
  fdiv (float64_sum (float64_values c)) (inject_Z (Z.of_nat (List.length c))).

(** The arithmetic mean of the numbers of a column, with exact
    arithmetic. *)
Definition exact_mean (c : column) : Q :=
  (Qsum (map cell_number c) / inject_Z (Z.of_nat (List.length c)))%Q.

(** [df[name].mean()]: missing values are skipped; an unknown label is a
    KeyError, whose text is the label quoted. *)
Definition column_mean {S : Summation} (name : string) (d : DataFrame)
  : outcome pyobj :=
  match get_column name d with
  | None => Raise (Exn KeyError (quote name) None)
  | Some c =>
      let present := filter (fun x => negb (cell_is_missing x)) c in
      if forallb cell_is_number present
      then match present with
           | [] => Return (PyObject "nan")
           | _ => Return (PyFloat (mean present))
           end
      else Raise (Exn TypeError "Could not convert to numeric" None)
  end.

Fixpoint remove_column (name : string) (cols : list (string * column))
  : list (string * column) :=
  match cols with
  | [] => []
  | (n, c) :: rest =>
      if String.eqb n name then rest else (n, c) :: remove_column name rest
  end.

(** [df.pop(name)]: removes the column from the frame, in place, and
    returns it. *)
Definition frame_pop (name : string) (d : DataFrame) : outcome pyobj * DataFrame :=
  match get_column name d with
  | None => (Raise (Exn KeyError (quote name) None), d)
  | Some c =>
      (Return (PyObject ("Series: " ++ name)),
       mkDataFrame (remove_column name (df_columns d)))
  end.

(** pandas' evaluator on the queries of the recorded run (the output of
    cell 10) and on two method calls that have an effect.  Names resolve in
    the caller's scope ([df], [os]); attribute access and method calls are
    carried out on the objects themselves; a call of a bare name is allowed
    for the evaluator's math functions only, so [len(df)] is refused (in
    the recorded run the agent goes on to [df.shape[0]]).  A mean is
    summed the way NumPy sums. *)
Definition pandas_eval (query : string) (d : DataFrame)
  : outcome pyobj * DataFrame :=
  if String.eqb query "df.columns.tolist()" then
    (Return (PyList (map PyStr (column_names d))), d)
  else if String.eqb query "len(df)" then
    (Raise (Exn ValueError
              (dquote ++ "len" ++ dquote ++ " is not a supported function") None), d)
  else if String.eqb query "df.shape[0]" then
    (Return (PyInt (Z.of_nat (nrows d))), d)
  else if String.eqb query "cars['price'].mean()" then
    (Raise (Exn NameError "name 'cars' is not defined" None), d)
  else if String.eqb query "df['price'].mean()" then
    (@column_mean numpy_pairwise "price" d, d)
  else if String.eqb query "df.columns" then
    (Return (PyObject ("Index([" ++ join ", " (map quote (column_names d))
                         ++ "], dtype='object')")), d)
  else if String.eqb query "df['Price'].mean()" then
    (@column_mean numpy_pairwise "Price" d, d)
  else if String.eqb query "df.pop('Price')" then
    frame_pop "Price" d
  else if String.eqb query "os.sys.exit()" then
    (Raise (Exn SystemExit "" None), d)
  else
    (Raise (Exn SyntaxError "invalid syntax" None), d).

(** NumPy's legacy generator, the one behind [np.random.seed] and the
    module-level draws: the Mersenne Twister MT19937 and the samplers of
    [RandomState].  A state is the 624 key words, the position in them,
    and the cached Gaussian sample ([np.random.get_state()]).  It is
    library code, written here from its algorithms; the examples below
    check it against the output cell 5 recorded. *)

(** A value of C type [uint32_t]. *)
Definition w32 (x : Z) : Z := Z.land x 4294967295.

(** [init_genrand]: the key words from an integer seed. *)
Fixpoint init_genrand (n : nat) (i prev : Z) : list Z :=
  match n with
  | O => []
  | S k =>
      let v := w32 (1812433253 * Z.lxor prev (Z.shiftr prev 30) + i) in
      v :: init_genrand k (i + 1) v
  end.

(** [mt19937_gen]: the next 624 key words.  Word [i] is made of words
    [i], [i + 1] and [i + 397], indices taken modulo 624: from word 227 on,
    the third is a word already renewed. *)
Definition twist_word (cur next far : Z) : Z :=
  let y := Z.lor (Z.land cur 2147483648) (Z.land next 2147483647) in
  Z.lxor (Z.lxor far (Z.shiftr y 1)) (if Z.odd y then 2567483615 else 0).

Fixpoint twist_words (cur next far : list Z) : list Z :=
  match cur, next, far with
  | c :: cur', n :: next', f :: far' =>
      twist_word c n f :: twist_words cur' next' far'
  | _, _, _ => []
  end.

Definition mt_twist (mt : list Z) : list Z :=
  let a := twist_words (firstn 227 mt) (firstn 227 (skipn 1 mt)) (skipn 397 mt) in
  let b := twist_words (firstn 227 (skipn 227 mt)) (firstn 227 (skipn 228 mt)) a in
  let c := twist_words (firstn 169 (skipn 454 mt)) (firstn 169 (skipn 455 mt)) b in
  let last := twist_word (nth 623 mt 0) (nth 0 a 0) (nth 169 b 0) in
  (a ++ b ++ c ++ [last])%list.

(** The output function of the generator. *)
Definition temper (y : Z) : Z :=
  let y := Z.lxor y (Z.shiftr y 11) in
  let y := Z.lxor y (Z.land (Z.shiftl y 7) 2636928640) in
  let y := Z.lxor y (Z.land (Z.shiftl y 15) 4022730752) in
  Z.lxor y (Z.shiftr y 18).

Record mt19937 : Type := mkMT {
  mt_key : list Z;
  mt_pos : nat;
  has_gauss : bool;
  cached_gaussian : Q
}.

(** [np.random.seed(s)]: the key of [s], all of it used up, and no
    cached Gaussian. *)
Definition mt_seed (s : Z) : mt19937 :=
  let s0 := w32 s in
  mkMT (s0 :: init_genrand 623 1 s0) 624 false 0%Q.

Definition next_uint32 (st : mt19937) : Z * mt19937 :=
  let st1 := if (624 <=? mt_pos st)%nat
             then mkMT (mt_twist (mt_key st)) 0 (has_gauss st) (cached_gaussian st)
             else st in
  (w32 (temper (nth (mt_pos st1) (mt_key st1) 0)),
   mkMT (mt_key st1) (S (mt_pos st1)) (has_gauss st1) (cached_gaussian st1)).

Definition next_uint64 (st : mt19937) : Z * mt19937 :=
  let hi := next_uint32 st in
  let lo := next_uint32 (snd hi) in
  (Z.lor (Z.shiftl (fst hi) 32) (fst lo), snd lo).

(** A double of [0, 1) with 53 random bits. *)
Definition next_double (st : mt19937) : Q * mt19937 :=
  let a := next_uint32 st in
  let b := next_uint32 (snd a) in
  ((Z.shiftr (fst a) 5 * 67108864 + Z.shiftr (fst b) 6) # 9007199254740992,
   snd b).

(** The smallest mask of ones that covers [rng]. *)
Definition gen_mask (rng : Z) : Z :=
  let m := Z.lor rng (Z.shiftr rng 1) in
  let m := Z.lor m (Z.shiftr m 2) in
  let m := Z.lor m (Z.shiftr m 4) in
  let m := Z.lor m (Z.shiftr m 8) in
  let m := Z.lor m (Z.shiftr m 16) in
  Z.lor m (Z.shiftr m 32).

(** A value of [0, rng] by masked rejection: words are drawn until one,
    masked, is at most [rng].  The C loop is unbounded; here it gives up
    after [fuel] words and yields 0 (128 rejections in a row have a
    probability under 2^-128; no run below gets there). *)
Fixpoint bounded_masked (fuel : nat) (rng mask : Z) (st : mt19937) : Z * mt19937 :=
  match fuel with
  | O => (0, st)
  | S fuel' =>
      let w := if rng <=? 4294967295 then next_uint32 st else next_uint64 st in
      let val := Z.land (fst w) mask in
      if val <=? rng then (val, snd w) else bounded_masked fuel' rng mask (snd w)
  end.

Definition rejection_fuel : nat := 128.

Fixpoint bounded_fill (n : nat) (off rng mask : Z) (st : mt19937) : list Z * mt19937 :=
  match n with
  | O => ([], st)
  | S k =>
      let v := bounded_masked rejection_fuel rng mask st in
      let r := bounded_fill k off rng mask (snd v) in
      (off + fst v :: fst r, snd r)
  end.

(** [np.random.randint(low, high, n)], for the default integer type. *)
Definition legacy_randint (low high : Z) (n : nat) (st : mt19937) : list Z * mt19937 :=
  if low <? high
  then let rng := high - 1 - low in
       if rng =? 0 then (repeat low n, st)
       else bounded_fill n low rng (gen_mask rng) st
  else ([], st).

(** [np.random.choice(a, n)]: [n] indices of [randint(0, len(a))]. *)
Definition legacy_choice {A : Type} (a : list A) (n : nat) (st : mt19937)
  : list A * mt19937 :=
  match a with
  | [] => ([], st)
  | x :: _ =>
      let idx := legacy_randint 0 (Z.of_nat (List.length a)) n st in
      (map (fun i => nth (Z.to_nat i) a x) (fst idx), snd idx)
  end.

(** [np.random.uniform(low, high, n)]: [low + (high - low) * u]. *)
Fixpoint legacy_uniform (low high : Q) (n : nat) (st : mt19937) : list Q * mt19937 :=
  match n with
  | O => ([], st)
  | S k =>
      let u := next_double st in
      let r := legacy_uniform low high k (snd u) in
      ((low + (high - low) * fst u)%Q :: fst r, snd r)
  end.


Lemma w32_range x : 0 <= w32 x < 4294967296.
Proof.
  unfold w32. change 4294967295 with (Z.ones 32).
  rewrite Z.land_ones by lia. apply Z.mod_pos_bound. lia.
Qed.

Lemma next_uint32_range st : 0 <= fst (next_uint32 st) < 4294967296.
Proof. unfold next_uint32; cbn [fst]. apply w32_range. Qed.

Lemma next_uint64_nonneg st : 0 <= fst (next_uint64 st).
Proof.
  unfold next_uint64; cbn [fst]. apply Z.lor_nonneg. split.
  - apply Z.shiftl_nonneg, next_uint32_range.
  - apply next_uint32_range.
Qed.

Lemma bounded_masked_range fuel rng mask st :
  0 <= rng -> 0 <= fst (bounded_masked fuel rng mask st) <= rng.
Proof.
  intros Hr. revert st; induction fuel as [|fuel IH]; intros st;
    cbn [bounded_masked fst]; [lia|].
  set (w := if rng <=? 4294967295 then next_uint32 st else next_uint64 st).
  destruct (Z.leb_spec (Z.land (fst w) mask) rng) as [Hle|_]; [|apply IH].
  cbn [fst]. split; [|exact Hle].
  apply Z.land_nonneg. left. unfold w.
  destruct (rng <=? 4294967295);
    [apply next_uint32_range | apply next_uint64_nonneg].
Qed.

Lemma bounded_fill_length n off rng mask st :
  List.length (fst (bounded_fill n off rng mask st)) = n.
Proof.
  revert st; induction n as [|n IH]; intros st;
    cbn [bounded_fill fst List.length]; [reflexivity|].
  now rewrite IH.
Qed.

Lemma bounded_fill_range n off rng mask st x :
  0 <= rng -> In x (fst (bounded_fill n off rng mask st)) ->
  off <= x <= off + rng.
Proof.
  intros Hr. revert st; induction n as [|n IH]; intros st;
    cbn [bounded_fill fst In]; [tauto|].
  intros [<-|Hin].
  - pose proof (bounded_masked_range rejection_fuel rng mask st Hr). lia.
  - eapply IH, Hin.
Qed.

Lemma legacy_randint_length low high n st :
  low < high -> List.length (fst (legacy_randint low high n st)) = n.
Proof.
  intros H. unfold legacy_randint.
  destruct (Z.ltb_spec low high); [|lia].
  destruct (high - 1 - low =? 0); cbn [fst].
  - apply repeat_length.
  - apply bounded_fill_length.
Qed.

Lemma legacy_randint_range low high n st x :
  In x (fst (legacy_randint low high n st)) -> low <= x < high.
Proof.
  unfold legacy_randint.
  destruct (Z.ltb_spec low high); [|simpl; tauto].
  destruct (Z.eqb_spec (high - 1 - low) 0); cbn [fst]; intros Hin.
  - apply repeat_spec in Hin. lia.
  - apply bounded_fill_range in Hin; lia.
Qed.

Lemma legacy_choice_length (A : Type) (a : list A) n st :
  a <> [] -> List.length (fst (legacy_choice a n st)) = n.
Proof.
  destruct a as [|x a']; [congruence|]; intros _.
  unfold legacy_choice; cbn [fst]. rewrite length_map.
  apply legacy_randint_length. simpl List.length. lia.
Qed.

Lemma legacy_choice_In (A : Type) (a : list A) n st x :
  In x (fst (legacy_choice a n st)) -> In x a.
Proof.
  destruct a as [|y a']; [simpl; tauto|].
  unfold legacy_choice; cbn [fst]. rewrite in_map_iff.
  intros (i & <- & Hi). apply legacy_randint_range in Hi.
  apply nth_In. lia.
Qed.

Lemma next_double_range st :
  (0 <= fst (next_double st))%Q /\ (fst (next_double st) < 1)%Q.
Proof.
  unfold next_double; cbn [fst].
  pose proof (next_uint32_range st) as Ha.
  pose proof (next_uint32_range (snd (next_uint32 st))) as Hb.
  set (a := fst (next_uint32 st)) in *.
  set (b := fst (next_uint32 (snd (next_uint32 st)))) in *.
  rewrite !Z.shiftr_div_pow2 by lia.
  assert (0 <= a / 2 ^ 5 < 134217728)
    by (split; [apply Z.div_pos; lia | apply Z.div_lt_upper_bound; lia]).
  assert (0 <= b / 2 ^ 6 < 67108864)
    by (split; [apply Z.div_pos; lia | apply Z.div_lt_upper_bound; lia]).
  unfold Qle, Qlt; simpl. lia.
Qed.

Lemma legacy_uniform_length low high n st :
  (low < high)%Q -> List.length (fst (legacy_uniform low high n st)) = n.
Proof.
  intros _. revert st; induction n as [|n IH]; intros st;
    cbn [legacy_uniform fst List.length]; [reflexivity|].
  now rewrite IH.
Qed.

Lemma legacy_uniform_range low high n st x :
  (low < high)%Q -> In x (fst (legacy_uniform low high n st)) ->
  (low <= x)%Q /\ (x < high)%Q.
Proof.
  intros Hlh. revert st; induction n as [|n IH]; intros st;
    cbn [legacy_uniform fst In]; [tauto|].
  intros [<-|Hin]; [|eapply IH, Hin].
  destruct (next_double_range st) as [H0 H1].
  split; nra.
Qed.

Definition numpy : RandomState := {|
  rng := mt19937;
  seeded := mt_seed;
  choice := @legacy_choice;
  randint := legacy_randint;
  uniform := legacy_uniform;
  choice_length := legacy_choice_length;
  choice_In := legacy_choice_In;
  randint_length := legacy_randint_length;
  randint_range := legacy_randint_range;
  uniform_length := legacy_uniform_length;
  uniform_range := legacy_uniform_range
|}.

(** A stable insertion sort of the positions, as an instance of the sorting
    routine. *)
Fixpoint insert_position (keys : column) (i : nat) (sorted : list nat) : list nat :=
  match sorted with
  | [] => [i]
  | j :: rest =>
      if cell_leb (nth j keys NaN) (nth i keys NaN)
      then j :: insert_position keys i rest
      else i :: j :: rest
  end.

Definition insertion_argsort (keys : column) : list nat :=
  fold_left (fun sorted i => insert_position keys i sorted)
            (seq 0 (List.length keys)) [].

Lemma cell_leb_total a b : cell_leb a b = true \/ cell_leb b a = true.
Proof.
  unfold cell_leb.
  destruct (Z.eqb_spec (cell_kind a) (cell_kind b)) as [E|N].
  - rewrite <- E, Z.eqb_refl.
    destruct (cell_kind a =? 2).
    + apply String.leb_total.
    + rewrite !Qle_bool_iff.
      destruct (Qlt_le_dec (cell_number a) (cell_number b)) as [L|L];
        [left; apply Qlt_le_weak|right]; assumption.
  - destruct (Z.eqb_spec (cell_kind b) (cell_kind a)); [congruence|].
    rewrite !Z.ltb_lt. lia.
Qed.

Lemma insert_position_perm keys i sorted :
  Permutation (insert_position keys i sorted) (i :: sorted).
Proof.
  induction sorted as [|j rest IH]; simpl; [reflexivity|].
  destruct (cell_leb _ _); [|reflexivity].
  rewrite IH. apply perm_swap.
Qed.

Lemma fold_insert_perm keys l acc :
  Permutation (fold_left (fun s i => insert_position keys i s) l acc)
              (acc ++ l)%list.
Proof.
  revert acc; induction l as [|i l IH]; intros acc; simpl.
  - now rewrite app_nil_r.
  - rewrite IH, insert_position_perm.
    change (i :: acc)%list with ([i] ++ acc)%list.
    rewrite (Permutation_app_comm [i] acc), <- app_assoc. reflexivity.
Qed.

Lemma insert_position_sorted keys i sorted :
  Sorted (fun a b => cell_leb a b = true) (take sorted keys) ->
  Sorted (fun a b => cell_leb a b = true) (take (insert_position keys i sorted) keys).
Proof.
  unfold take.
  induction sorted as [|j rest IH]; simpl; intros HS.
  - repeat constructor.
  - destruct (cell_leb (nth j keys NaN) (nth i keys NaN)) eqn:E; simpl.
    + apply Sorted_inv in HS as [HS Hd]. constructor; [now apply IH|].
      destruct rest as [|k rest']; simpl.
      * constructor; assumption.
      * destruct (cell_leb (nth k keys NaN) (nth i keys NaN)); simpl;
          constructor; [now apply HdRel_inv in Hd | assumption].
    + constructor; [assumption|]. constructor.
      destruct (cell_leb_total (nth i keys NaN) (nth j keys NaN)); congruence.
Qed.

Lemma fold_insert_sorted keys l acc :
  Sorted (fun a b => cell_leb a b = true) (take acc keys) ->
  Sorted (fun a b => cell_leb a b = true)
         (take (fold_left (fun s i => insert_position keys i s) l acc) keys).
Proof.
  revert acc; induction l as [|i l IH]; intros acc HS; simpl; [assumption|].
  apply IH, insert_position_sorted, HS.
Qed.

Lemma insertion_argsort_perm keys :
  Permutation (insertion_argsort keys) (seq 0 (List.length keys)).
Proof. unfold insertion_argsort. now rewrite fold_insert_perm. Qed.

Lemma insertion_argsort_sorted keys :
  Sorted (fun a b => cell_leb a b = true) (take (insertion_argsort keys) keys).
Proof. apply fold_insert_sorted. constructor. Qed.

Definition insertion_sort : Argsort := {|
  argsort := insertion_argsort;
  argsort_perm := insertion_argsort_perm;
  argsort_sorted := insertion_argsort_sorted
|}.

(** python-dotenv's [load_dotenv] with its defaults, on the mapping it
    parses from the .env file (each name once; a name without a value has
    [None]): a variable the environment already has is left alone
    ([override=False]), and a name without a value sets nothing. *)
Fixpoint dotenv_load (file : list (string * option string)) (env : environ)
  : environ :=
  match file with
  | [] => env
  | (k, v) :: rest =>
      match getenv k env, v with
      | None, Some value => dotenv_load rest (putenv k value env)
      | _, _ => dotenv_load rest env
      end
  end.

(** The first five rows of the dataset of the recorded run, as cell 5
    printed them ([df.head()]). *)
Definition head_frame : DataFrame :=
  mkDataFrame
    [ ("Date", [Timestamp (datetime 2022 1 1); Timestamp (datetime 2022 1 2);
                Timestamp (datetime 2022 1 3); Timestamp (datetime 2022 1 4);
                Timestamp (datetime 2022 1 5)]);
      ("Make", [Str "Mercedes"; Str "Chevrolet"; Str "Audi"; Str "Nissan";
                Str "Mercedes"]);
      ("Model", [Str "Sedan"; Str "Hatchback"; Str "Truck"; Str "Hatchback";
                 Str "Hatchback"]);
      ("Color", [Str "Green"; Str "Red"; Str "White"; Str "Black"; Str "Red"]);
      ("Year", [Int 2022; Int 2021; Int 2019; Int 2016; Int 2016]);
      ("Price", [Float 57952.65; Float 58668.22; Float 69187.87;
                 Float 40004.44; Float 63983.07]);
      ("Mileage", [Float 5522; Float 94238; Float 7482; Float 43846;
                   Float 52988]);
      ("EngineSize", [Float 2; Float 1.6; Float 2; Float 3.5; Float 2.5]);
      ("FuelEfficiency", [Float 24.7; Float 26.2; Float 28.0; Float 24.8;
                          Float 24.1]);
      ("SalesPerson", [Str "Alice"; Str "Bob"; Str "David"; Str "David";
                       Str "Alice"]) ].

(** The frame of the notebook's run: seed 42, 1000 rows, NumPy's
    generator. *)
Definition recorded_frame : DataFrame :=
  mkDataFrame (fst (@data numpy n_rows (mt_seed 42))).

(** The frame of a second run of cell 5 that does not seed again. *)
Definition second_frame : DataFrame :=
  mkDataFrame (fst (@data numpy n_rows (snd (@data numpy n_rows (mt_seed 42))))).

(** Column statistics, as [df.describe()] reports them: the mean to the
    six decimals of the printout. *)
Definition minimum (c : column) : Q :=
  fold_right (fun x m => if Qle_bool x m then x else m)
             (cell_number (hd NaN c)) (map cell_number c).

Definition maximum (c : column) : Q :=
  fold_right (fun x m => if Qle_bool m x then x else m)
             (cell_number (hd NaN c)) (map cell_number c).

Definition describe (name : string) (d : DataFrame) : option (nat * Q * Q * Q) :=
  match get_column name d with
  | Some c =>
      Some (List.length c, Qred (np_round 6 (@mean numpy_pairwise c)),
            Qred (minimum c), Qred (maximum c))
  | None => None
  end.

Definition head_world : World := mkWorld [] head_frame.

Definition tool_context : RunContext := mkRunContext (Deps.mk global_df).

(** A float formatting for running the examples: the fraction, reduced. *)
Definition fraction_repr (q : Q) : string :=
  let r := Qred q in
  str_int (Qnum r) ++ "/" ++ str_int (Zpos (Qden r)).

(** Python's [repr] of a float, which is [str] of a [numpy.float64] too:
    the shortest decimal digits that read back as the same float64, at most
    17, written with an exponent when the decimal point would be more than
    16 places right or more than 3 places left of the first digit. *)
Definition pow10 (e : Z) : Q := (10 ^ e)%Q.

(** For a positive [x], the integer [e] with [10^e <= x < 10^(e+1)]. *)
Definition Qlog10 (x : Q) : Z :=
  let e := Qlog2 x * 30103 / 100000 in
  if Qle_bool (pow10 (e + 1)) x then e + 1
  else if Qle_bool (pow10 e) x then e
  else e - 1.

(** [x] to [p] significant digits: the digits as an integer, and the place
    of the decimal point counted from before the first digit. *)
Definition to_digits (p : nat) (x : Q) : Z * Z :=
  let e := Qlog10 x in
  let m := rint (x / pow10 (e - Z.of_nat p + 1)) in
  if m =? 10 ^ Z.of_nat p then (10 ^ (Z.of_nat p - 1), e + 2) else (m, e + 1).

Definition digits_value (p : nat) (d : Z * Z) : Q :=
  (inject_Z (fst d) * pow10 (snd d - Z.of_nat p))%Q.

Fixpoint shortest_digits (tries : nat) (p : nat) (x : Q) : nat * (Z * Z) :=
  let d := to_digits p x in
  match tries with
  | O => (p, d)
  | S tries' =>
      if Qeq_bool (binary64 (digits_value p d)) x then (p, d)
      else shortest_digits tries' (S p) x
  end.

Definition zeros (n : Z) : string :=
  string_of_list_ascii (repeat "0"%char (Z.to_nat n)).

Definition two_digits (n : Z) : string :=
  if n <? 10 then "0" ++ str_int n else str_int n.

Definition shortest_repr (x : Q) : string :=
  match Qcompare x 0 with
  | Eq => "0.0"
  | c =>
      let sign := match c with Lt => "-" | _ => EmptyString end in
      let pd := shortest_digits 16 1 (Qabs x) in
      let p := Z.of_nat (fst pd) in
      let digits := str_int (fst (snd pd)) in
      let point := snd (snd pd) in
      sign ++
      (if (point <=? -4) || (16 <? point) then
         String.substring 0 1 digits
         ++ (if p =? 1 then EmptyString
             else "." ++ String.substring 1 (Z.to_nat (p - 1)) digits)
         ++ "e" ++ (if point - 1 <? 0 then "-" else "+")
         ++ two_digits (Z.abs (point - 1))
       else if point <=? 0 then "0." ++ zeros (- point) ++ digits
       else if p <=? point then digits ++ zeros (point - p) ++ ".0"
       else String.substring 0 (Z.to_nat point) digits ++ "."
            ++ String.substring (Z.to_nat point) (Z.to_nat (p - point)) digits)
  end.

(** A run that logs its call and fails, and one that logs its call and
    answers: they make the driver's calls of the run visible on the
    output. *)
Definition failing_run (question : string) (d : Deps.t) (w : World)
  : outcome RunResult * World :=
  (Raise (Exn UnexpectedModelBehavior "Tool exceeded max retries count of 10" None),
   print "run_sync called" w).

Definition answering_run (question : string) (d : Deps.t) (w : World)
  : outcome RunResult * World :=
  (Return (mkRunResult [UserPrompt question;
                        ModelTextResponse "The dataset contains 1,000 rows."]),
   print "run_sync called" w).

(** An evaluation that is interrupted from the keyboard, whatever the
    query. *)
Definition interrupted_eval (query : string) (d : DataFrame)
  : outcome pyobj * DataFrame :=
  (Raise (Exn KeyboardInterrupt "" None), d).


(** A model that asks for [os.sys.exit()]. *)
Definition exiting_llm (messages : list Message) : reply := Call "os.sys.exit()".




(** Column by column: every cell is of the column's type. *)
Definition columns_conform (cols : list (string * column))
    (s : list (string * dtype)) : Prop :=
  Forall2 (fun col t => fst col = fst t /\
                        forall c, In c (snd col) -> cell_conforms (snd t) c = true)
          cols s.

(** Comparing two runs column by column. *)
Definition cell_eqb (a b : cell) : bool :=
  match a, b with
  | NaN, NaN => true
  | Timestamp d1, Timestamp d2 => ordinal d1 =? ordinal d2
  | Str s1, Str s2 => String.eqb s1 s2
  | Int z1, Int z2 => z1 =? z2
  | Float q1, Float q2 => Qeq_bool q1 q2
  | _, _ => false
  end.

(** Some row holds different values in the two columns. *)
Definition columns_differ (c1 c2 : column) : bool :=
  existsb (fun p => negb (cell_eqb (fst p) (snd p))) (combine c1 c2).

Definition column_changed (name : string) (d1 d2 : DataFrame) : bool :=
  match get_column name d1, get_column name d2 with
  | Some c1, Some c2 => columns_differ c1 c2
  | _, _ => false
  end.

(** The columns that [data] draws. *)
Definition random_columns : list string :=
  ["Make"; "Model"; "Color"; "Year"; "Price"; "Mileage"; "EngineSize";
   "FuelEfficiency"; "SalesPerson"].

(** * Properties *)

(** ** Strings *)

Lemma prefix_append s t : prefix s (s ++ t) = true.
Proof.
  induction s as [|a s IH]; simpl.
  - now destruct t.
  - destruct (ascii_dec a a); [assumption|congruence].
Qed.

Lemma is_substring_prefix s t : prefix s t = true -> is_substring s t = true.
Proof. intros H. destruct t; unfold is_substring; rewrite H; reflexivity. Qed.

Lemma is_substring_here s t : is_substring s (s ++ t) = true.
Proof. apply is_substring_prefix, prefix_append. Qed.

Lemma is_substring_later p s t :
  is_substring s t = true -> is_substring s (p ++ t) = true.
Proof.
  induction p as [|a p IH]; simpl; intros H; [assumption|].
  rewrite (IH H). apply orb_true_r.
Qed.

Lemma is_substring_middle p s t : is_substring s (p ++ s ++ t) = true.
Proof. apply is_substring_later, is_substring_here. Qed.

(** [str_int] writes the decimal numeral: read as one, it is the number. *)
Lemma str_int_reads_back z :
  option_map Z.of_int (NilZero.int_of_string (str_int z)) = Some z.
Proof.
  unfold str_int. rewrite NilZero.isi.
  - simpl. now rewrite DecimalZ.of_to.
  - destruct z; simpl; try discriminate.
    intros [= H]. now apply DecimalPos.Unsigned.to_uint_nonnil in H.
  - destruct z; simpl; try discriminate.
    intros [= H]. now apply DecimalPos.Unsigned.to_uint_nonnil in H.
Qed.

(** ** The query tool *)

Section ToolProperties.
Variable float_repr : Q -> string.
Variable pd_eval : string -> DataFrame -> outcome pyobj * DataFrame.

Lemma retry_message_has_query query e :
  is_substring query (retry_message query e) = true.
Proof. unfold retry_message. apply is_substring_middle. Qed.

Lemma retry_message_has_reason query e :
  is_substring (exn_message e) (retry_message query e) = true.
Proof.
  unfold retry_message.
  apply is_substring_later, is_substring_later, is_substring_middle.
Qed.

(** The tool prints the query first, whatever happens next. *)
Lemma df_query_stdout ctx query w :
  stdout (snd (df_query float_repr pd_eval ctx query w))
  = (stdout w ++ [trace_line query])%list.
Proof.
  unfold df_query; simpl.
  destruct (fst (pd_eval query (frame w))); [reflexivity|].
  destruct (is_Exception e); reflexivity.
Qed.

(** The frame after a call is the frame as the evaluator left it. *)
Lemma df_query_frame ctx query w :
  frame (snd (df_query float_repr pd_eval ctx query w))
  = snd (pd_eval query (frame w)).
Proof.
  unfold df_query; simpl.
  destruct (fst (pd_eval query (frame w))); [reflexivity|].
  destruct (is_Exception e); reflexivity.
Qed.

(** An exit or interrupt signal is no [Exception]: the handler does not
    apply and the signal leaves the tool as it is. *)
Lemma df_query_signal_propagates ctx query w e :
  fst (pd_eval query (frame w)) = Raise e ->
  is_Exception e = false ->
  fst (df_query float_repr pd_eval ctx query w) = Raise e.
Proof.
  intros He Hc. unfold df_query; simpl. now rewrite He, Hc.
Qed.

(** An error of class [Exception] is caught and raised again as the retry
    signal. *)
Lemma df_query_on_error ctx query w e :
  fst (pd_eval query (frame w)) = Raise e ->
  is_Exception e = true ->
  fst (df_query float_repr pd_eval ctx query w)
    = Raise (Exn ModelRetry (retry_message query e) (Some e)).
Proof.
  intros He Hc. unfold df_query; simpl. now rewrite He, Hc.
Qed.

(** C1, as amended: when the evaluation of the query fails with an error
    of class [Exception], the tool raises [ModelRetry], caused by that
    error, with a message that contains the query text and the error text;
    it does not return and raises nothing else.  A failure that is no
    [Exception] (an exit or interrupt signal) leaves the tool as it is. *)
Theorem df_query_error_becomes_retry ctx query w e :
  fst (pd_eval query (frame w)) = Raise e ->
  (is_Exception e = true ->
     fst (df_query float_repr pd_eval ctx query w)
       = Raise (Exn ModelRetry (retry_message query e) (Some e))
     /\ is_substring query (retry_message query e) = true
     /\ is_substring (exn_message e) (retry_message query e) = true)
  /\ (is_Exception e = false ->
      fst (df_query float_repr pd_eval ctx query w) = Raise e).
Proof.
  intros He. split; intros Hc.
  - split; [now apply df_query_on_error|].
    split; [apply retry_message_has_query | apply retry_message_has_reason].
  - now apply df_query_signal_propagates.
Qed.

(** C3, as amended: when the evaluation succeeds, the tool returns the
    string conversion of the value; when that value is the integer [n] (the
    row count, for a row-count query the evaluator accepts), the result is
    the decimal numeral of [n]: read as a numeral, it is [n]. *)
Theorem df_query_returns_str ctx query w v :
  fst (pd_eval query (frame w)) = Return v ->
  fst (df_query float_repr pd_eval ctx query w) = Return (py_str float_repr v)
  /\ (forall n : nat, v = PyInt (Z.of_nat n) ->
      fst (df_query float_repr pd_eval ctx query w)
        = Return (str_int (Z.of_nat n))
      /\ option_map Z.of_int (NilZero.int_of_string (str_int (Z.of_nat n)))
         = Some (Z.of_nat n)).
Proof.
  intros Hv.
  assert (E : fst (df_query float_repr pd_eval ctx query w)
              = Return (py_str float_repr v))
    by (unfold df_query; simpl; now rewrite Hv).
  split; [exact E|].
  intros n ->. split; [exact E | apply str_int_reads_back].
Qed.

(** C8, as amended: the tool itself writes nothing to the frame: after a
    call the frame is as the evaluator left it.  So a query whose
    evaluation leaves the frame as it was, whether it yields a value or
    raises, leaves every Record and every field unchanged. *)
Theorem df_query_preserves_frame ctx query w :
  frame (snd (df_query float_repr pd_eval ctx query w))
    = snd (pd_eval query (frame w))
  /\ (snd (pd_eval query (frame w)) = frame w ->
      frame (snd (df_query float_repr pd_eval ctx query w)) = frame w
      /\ records (frame (snd (df_query float_repr pd_eval ctx query w)))
         = records (frame w)).
Proof.
  split; [apply df_query_frame|].
  intros H. rewrite df_query_frame, H. split; reflexivity.
Qed.
End ToolProperties.

(** The amended C1 at the recorded failing query [df['price'].mean()]: the
    unknown label is a KeyError, and the tool turns it into the retry
    signal. *)
Lemma df_query_error_becomes_retry_witness :
  let e := Exn KeyError "'price'" None in
  fst (pandas_eval "df['price'].mean()" (frame head_world)) = Raise e
  /\ is_Exception e = true
  /\ fst (df_query fraction_repr pandas_eval tool_context
            "df['price'].mean()" head_world)
       = Raise (Exn ModelRetry (retry_message "df['price'].mean()" e) (Some e))
  /\ is_substring "df['price'].mean()"
       (retry_message "df['price'].mean()" e) = true
  /\ is_substring (exn_message e) (retry_message "df['price'].mean()" e) = true.
Proof.
  cbv zeta. split; [reflexivity|]. split; [reflexivity|].
  apply (df_query_error_becomes_retry fraction_repr pandas_eval tool_context
           "df['price'].mean()" head_world (Exn KeyError "'price'" None));
    reflexivity.
Defined.

(** C1 as stated fails: the evaluation of [os.sys.exit()] resolves [os] in
    the notebook's scope and calls the function, which raises SystemExit; the
    handler [except Exception] does not apply to it, and the tool raises
    SystemExit itself, not the retry signal.  (An interrupt that arrives
    while a query is evaluated, KeyboardInterrupt, leaves the same way.) *)
Lemma df_query_exit_is_not_retry :
  fst (pandas_eval "os.sys.exit()" (frame head_world))
    = Raise (Exn SystemExit "" None)
  /\ fst (df_query fraction_repr pandas_eval tool_context "os.sys.exit()" head_world)
     = Raise (Exn SystemExit "" None)
  /\ (forall message cause,
        fst (df_query fraction_repr pandas_eval tool_context "os.sys.exit()" head_world)
        <> Raise (Exn ModelRetry message cause)).
Proof.
  split; [reflexivity|]. split; [reflexivity|].
  intros message cause. vm_compute. discriminate.
Qed.

Example df_query_interrupted :
  fst (df_query fraction_repr interrupted_eval tool_context "df.shape[0]" head_world)
  = Raise (Exn KeyboardInterrupt "" None).
Proof. reflexivity. Qed.

(** The amended C3 at the row-count query of the recorded run,
    [df.shape[0]], on the five recorded rows. *)
Lemma df_query_returns_str_witness :
  fst (pandas_eval "df.shape[0]" (frame head_world)) = Return (PyInt 5)
  /\ fst (df_query fraction_repr pandas_eval tool_context "df.shape[0]" head_world)
     = Return "5"
  /\ (forall n : nat, PyInt 5 = PyInt (Z.of_nat n) ->
      fst (df_query fraction_repr pandas_eval tool_context "df.shape[0]" head_world)
        = Return (str_int (Z.of_nat n))
      /\ option_map Z.of_int (NilZero.int_of_string (str_int (Z.of_nat n)))
         = Some (Z.of_nat n)).
Proof.
  split; [reflexivity|].
  apply (df_query_returns_str fraction_repr pandas_eval tool_context
           "df.shape[0]" head_world (PyInt 5)).
  reflexivity.
Defined.

(** C3 as stated fails: the evaluator refuses the call of the bare name
    [len], so on a frame of five rows [len(df)] does not return the numeral
    of 5; the tool raises the retry signal. *)
Lemma df_query_len_is_refused :
  nrows (frame head_world) = 5%nat
  /\ (exists e,
        fst (df_query fraction_repr pandas_eval tool_context "len(df)" head_world)
          = Raise (Exn ModelRetry (retry_message "len(df)" e) (Some e))
        /\ exn_class e = ValueError)
  /\ fst (df_query fraction_repr pandas_eval tool_context "len(df)" head_world)
     <> Return "5".
Proof.
  split; [reflexivity|]. split.
  - eexists. split; reflexivity.
  - vm_compute. discriminate.
Qed.

(** The amended C8 at a query that fails: the frame is as it was. *)
Lemma df_query_preserves_frame_witness :
  snd (pandas_eval "df['price'].mean()" (frame head_world)) = frame head_world
  /\ frame (snd (df_query fraction_repr pandas_eval tool_context
                   "df['price'].mean()" head_world)) = frame head_world
  /\ records (frame (snd (df_query fraction_repr pandas_eval tool_context
                            "df['price'].mean()" head_world)))
     = records (frame head_world).
Proof.
  split; [reflexivity|].
  apply (df_query_preserves_frame fraction_repr pandas_eval tool_context
           "df['price'].mean()" head_world).
  reflexivity.
Defined.

(** C8 as stated fails: [df.pop('Price')] is a method call on the frame
    object that the tool hands to the evaluator; it succeeds, and afterwards
    the shared frame has lost the column, so every Record has lost a
    field. *)
Lemma df_query_pop_changes_frame :
  returned (fst (df_query fraction_repr pandas_eval tool_context
                   "df.pop('Price')" head_world)) = true
  /\ get_column "Price" (frame head_world)
     = Some [Float 57952.65; Float 58668.22; Float 69187.87;
             Float 40004.44; Float 63983.07]
  /\ get_column "Price"
       (frame (snd (df_query fraction_repr pandas_eval tool_context
                      "df.pop('Price')" head_world))) = None
  /\ records (frame (snd (df_query fraction_repr pandas_eval tool_context
                            "df.pop('Price')" head_world)))
     <> records (frame head_world).
Proof.
  repeat split; try reflexivity.
  vm_compute. discriminate.
Qed.

(** ** The question driver *)

Section DriverProperties.
Variable run_sync : string -> Deps.t -> World -> outcome RunResult * World.

Lemma last_item_of_snoc {A : Type} (l : list A) (x : A) :
  last_item (l ++ [x])%list = Return x.
Proof. unfold last_item. now rewrite rev_unit. Qed.

(** C9: the driver prints the question and calls the run once, on the
    world with that line.  A failure of the run is the failure of the
    driver, in the world the run left: it is not caught, and the run is not
    called again.  When the run returns and the last of its messages is
    the model's text, that text is the answer: the driver prints it after
    what the run printed, then a rule, and returns no value.  In general
    the answer is the content of the last message, whatever its kind. *)
Theorem ask_agent_contract question w :
  let w1 := print ("Question: " ++ question) w in
  let r := run_sync question (Deps.mk global_df) w1 in
  stdout w1 = (stdout w ++ [("Question: " ++ question)%string])%list
  /\ (forall e, fst r = Raise e ->
        ask_agent run_sync question w = (Raise e, snd r))
  /\ (forall earlier text,
        fst r = Return (mkRunResult (earlier ++ [ModelTextResponse text])%list) ->
        ask_agent run_sync question w
          = (Return tt, print "---" (print ("Answer: " ++ text) (snd r)))
        /\ stdout (snd (ask_agent run_sync question w))
           = (stdout (snd r) ++ [("Answer: " ++ text)%string; "---"])%list
        /\ frame (snd (ask_agent run_sync question w)) = frame (snd r))
  /\ (forall response answer,
        fst r = Return response ->
        last_content response = Return answer ->
        ask_agent run_sync question w
          = (Return tt, print "---" (print ("Answer: " ++ answer) (snd r)))).
Proof.
  cbv zeta. split; [reflexivity|].
  destruct (run_sync question (Deps.mk global_df)
              (print ("Question: " ++ question) w)) as [[response|e0] w2] eqn:Hr;
    unfold ask_agent; rewrite Hr; cbn [fst snd].
  - split; [intros e [=]|]. split.
    + intros earlier text [= ->].
      unfold last_content; cbn [new_messages].
      rewrite last_item_of_snoc; cbn [content_of].
      split; [reflexivity|]. split; [|reflexivity].
      unfold print; cbn [stdout]. now rewrite <- app_assoc.
    + intros response' answer [= <-] Ha. now rewrite Ha.
  - split; [intros e [= <-]; reflexivity|].
    split; [intros earlier text [=]|intros response answer [=]].
Qed.
End DriverProperties.

Example ask_agent_failure :
  ask_agent failing_run "How many rows are in this dataset?" head_world
  = (Raise (Exn UnexpectedModelBehavior "Tool exceeded max retries count of 10" None),
     mkWorld ["Question: How many rows are in this dataset?"; "run_sync called"]
             head_frame).
Proof. reflexivity. Qed.

Example ask_agent_answer :
  ask_agent answering_run "How many rows are in this dataset?" head_world
  = (Return tt,
     mkWorld ["Question: How many rows are in this dataset?"; "run_sync called";
              "Answer: The dataset contains 1,000 rows."; "---"]
             head_frame).
Proof. reflexivity. Qed.

(** ** The retry budget *)

Section LoopProperties.
Variable llm : list Message -> reply.
Variable tool : RunContext -> string -> World -> outcome string * World.

(** What the tool lets through besides the retry signal. *)
Variable let_through : exn -> Prop.

(** Every call of the tool that the model asks for raises: the retry
    signal, or an exception that the tool lets through. *)
Hypothesis tool_always_raises : forall messages query ctx w,
  llm messages = Call query ->
  exists e, fst (tool ctx query w) = Raise e
            /\ (exn_class e = ModelRetry
                \/ (exn_class e <> ModelRetry /\ let_through e)).

End LoopProperties.



(** The third way to end: a model that asks for [os.sys.exit()] has its
    one query fail evaluation, with SystemExit; the tool lets it through,
    and the run ends with it after one call, no retry being made. *)
Example run_ends_on_exit :
  let r := run exiting_llm (df_query fraction_repr pandas_eval) 20 agent
             "How many rows are in this dataset?" (Deps.mk global_df) head_world in
  result r = Some (Raise (Exn SystemExit EmptyString None))
  /\ invocations r = 1%nat
  /\ stdout (world r) = [trace_line "os.sys.exit()"].
Proof. cbv zeta. repeat split; reflexivity. Qed.


(** ** Rounding *)

Lemma rint_floor_or_next x : rint x = Qfloor x \/ rint x = Qfloor x + 1.
Proof.
  unfold rint. destruct (Qcompare _ _); [destruct (Z.even _)| |]; auto.
Qed.

Lemma rint_lower (a : Z) x : (inject_Z a <= x)%Q -> a <= rint x.
Proof.
  intros H. apply Qfloor_resp_le in H. rewrite Qfloor_Z in H.
  destruct (rint_floor_or_next x) as [-> | ->]; lia.
Qed.

Lemma rint_upper (b : Z) x : (x <= inject_Z b)%Q -> rint x <= b.
Proof.
  intros H. pose proof (Qfloor_resp_le _ _ H) as Hf. rewrite Qfloor_Z in Hf.
  destruct (Z.eq_dec (Qfloor x) b) as [E|N].
  - unfold rint. pose proof (Qfloor_le x) as Hl. rewrite E in *.
    destruct (Qcompare_spec (x - inject_Z b) (1 # 2)); [lra|lia|lra].
  - destruct (rint_floor_or_next x) as [-> | ->]; lia.
Qed.

Lemma scale_positive d : (0 < inject_Z (10 ^ Z.of_nat d))%Q.
Proof.
  change 0%Q with (inject_Z 0). rewrite <- Zlt_Qlt. apply Z.pow_pos_nonneg; lia.
Qed.

Lemma np_round_bounds d (lo hi : Z) x :
  (inject_Z lo <= x)%Q -> (x <= inject_Z hi)%Q ->
  (inject_Z lo <= np_round d x)%Q /\ (np_round d x <= inject_Z hi)%Q.
Proof.
  intros Hlo Hhi. unfold np_round.
  pose proof (scale_positive d) as Hs.
  set (S := 10 ^ Z.of_nat d) in *.
  split.
  - apply Qle_shift_div_l; [assumption|].
    rewrite <- inject_Z_mult, <- Zle_Qle. apply rint_lower.
    rewrite inject_Z_mult. apply Qmult_le_compat_r; [assumption|lra].
  - apply Qle_shift_div_r; [assumption|].
    rewrite <- inject_Z_mult, <- Zle_Qle. apply rint_upper.
    rewrite inject_Z_mult. apply Qmult_le_compat_r; [assumption|lra].
Qed.

Lemma np_round_decimals d x : has_decimals d (np_round d x) = true.
Proof.
  unfold has_decimals, np_round.
  pose proof (scale_positive d) as Hs.
  set (s := inject_Z (10 ^ Z.of_nat d)) in *.
  assert (E : (inject_Z (rint (x * s)) / s * s == inject_Z (rint (x * s)))%Q).
  { field. lra. }
  rewrite (Qred_complete _ _ E).
  rewrite Qcanon.Qred_identity; [reflexivity|]. simpl. apply Z.gcd_1_r.
Qed.

Lemma sorted_seq start n : Sorted le (seq start n).
Proof.
  revert start; induction n as [|n IH]; intros start; simpl; constructor.
  - apply IH.
  - destruct n; simpl; constructor. lia.
Qed.

Lemma sorted_perm_unique (l1 l2 : list nat) :
  Sorted le l1 -> Sorted le l2 -> Permutation l1 l2 -> l1 = l2.
Proof.
  intros H1 H2.
  apply Sorted_StronglySorted in H1; [|exact Nat.le_trans].
  apply Sorted_StronglySorted in H2; [|exact Nat.le_trans].
  revert l2 H2; induction H1 as [|a l1 Hs IH Ha]; intros l2 H2 HP.
  - now apply Permutation_nil in HP.
  - destruct H2 as [|b l2 Hs2 Hb].
    + apply Permutation_sym, Permutation_nil in HP. discriminate.
    + assert (a = b).
      { assert (Hab : In a (b :: l2)) by (eapply Permutation_in; [exact HP|now left]).
        assert (Hba : In b (a :: l1))
          by (eapply Permutation_in; [apply Permutation_sym, HP|now left]).
        rewrite Forall_forall in Ha, Hb.
        destruct Hab as [->|Hab]; [reflexivity|].
        destruct Hba as [->|Hba]; [reflexivity|].
        specialize (Ha _ Hba). specialize (Hb _ Hab). lia. }
      subst b. f_equal. apply IH; [assumption|].
      eapply Permutation_cons_inv, HP.
Qed.

Lemma take_all (c : column) : take (seq 0 (List.length c)) c = c.
Proof.
  unfold take. induction c as [|x c IH]; simpl; [reflexivity|].
  f_equal. rewrite <- seq_shift, map_map. exact IH.
Qed.

Lemma timestamp_leb a b :
  cell_leb (Timestamp (Date a)) (Timestamp (Date b)) = true <-> a <= b.
Proof.
  unfold cell_leb; simpl. rewrite Qle_bool_iff, <- Zle_Qle. reflexivity.
Qed.

Lemma comparable_timestamps (l : list date) : comparable (map Timestamp l) = true.
Proof.
  unfold comparable.
  destruct (filter _ (map Timestamp l)) as [|c rest] eqn:E; [reflexivity|].
  assert (K : forall x, In x (c :: rest) -> cell_kind x = 0).
  { intros x Hx. rewrite <- E in Hx. apply filter_In in Hx as [Hx _].
    apply in_map_iff in Hx as (d & <- & _). reflexivity. }
  apply forallb_forall. intros x Hx.
  rewrite (K x (or_intror Hx)), (K c (or_introl eq_refl)). reflexivity.
Qed.

Lemma same_length_of_Forall n (cols : list (string * column)) :
  Forall (fun nc => List.length (snd nc) = n) cols -> same_length cols = true.
Proof.
  intros H. destruct cols as [|[name c] rest]; [reflexivity|].
  simpl. apply Forall_cons_iff in H as [Hc Hr]. simpl in Hc.
  apply forallb_forall. intros nc Hnc.
  rewrite Forall_forall in Hr. rewrite (Hr nc Hnc), Hc. apply Nat.eqb_refl.
Qed.

Lemma map_take_all n (cols : list (string * column)) :
  Forall (fun nc => List.length (snd nc) = n) cols ->
  map (fun nc => (fst nc, take (seq 0 n) (snd nc))) cols = cols.
Proof.
  induction 1 as [|[name c] rest Hc _ IH]; simpl; [reflexivity|].
  simpl in Hc. rewrite IH, <- Hc, take_all. reflexivity.
Qed.

(** ** float64 arithmetic *)

Lemma pow2_pos e : (0 < pow2 e)%Q.
Proof. apply Qpower_0_lt. reflexivity. Qed.

Lemma pow2_add a b : (pow2 (a + b) == pow2 a * pow2 b)%Q.
Proof. apply Qpower_plus. discriminate. Qed.

Lemma pow2_inject e : 0 <= e -> (pow2 e == inject_Z (2 ^ e))%Q.
Proof. intros H. unfold pow2. now rewrite Zpower_Qpower. Qed.



Lemma Qlog2_lt x : (0 < x)%Q -> (x < pow2 (Qlog2 x + 1))%Q.
Proof.
  intros Hx. destruct x as [a b]. unfold Qlog2; cbn [Qnum Qden].
  set (la := Z.log2 a). set (lb := Z.log2 (Zpos b)).
  destruct (Qle_bool (pow2 (la - lb)) (a # b)) eqn:E.
  - assert (Ha : 0 < a) by (unfold Qlt in Hx; simpl in Hx; lia).
    destruct (Z.log2_spec a Ha) as [_ Ha2].
    destruct (Z.log2_spec (Zpos b) (Pos2Z.is_pos b)) as [Hb1 _].
    fold la in Ha2. fold lb in Hb1.
    assert (Hla : 0 <= la) by apply Z.log2_nonneg.
    assert (Hlb : 0 <= lb) by apply Z.log2_nonneg.
    assert (P : (pow2 (la - lb + 1) * pow2 lb == pow2 (la + 1))%Q).
    { rewrite <- pow2_add. now replace (la - lb + 1 + lb) with (la + 1) by lia. }
    rewrite (pow2_inject (la + 1)), (pow2_inject lb) in P by lia.
    rewrite (Qmake_Qdiv a b).
    apply Qlt_shift_div_r; [reflexivity|].
    pose proof (pow2_pos (la - lb + 1)) as Hp.
    assert (H1 : (inject_Z (2 ^ lb) <= inject_Z (Zpos b))%Q)
      by (now rewrite <- Zle_Qle).
    assert (H2 : (inject_Z a < inject_Z (2 ^ (la + 1)))%Q)
      by (rewrite <- Zlt_Qlt; unfold Z.succ in Ha2; lia).
    apply Qlt_le_trans with (pow2 (la - lb + 1) * inject_Z (2 ^ lb))%Q.
    + rewrite P. exact H2.
    + apply Qmult_le_l; assumption.
  - replace (la - lb - 1 + 1) with (la - lb) by lia.
    apply Qnot_le_lt. intros H. apply Qle_bool_iff in H. congruence.
Qed.













(** With as many steps as there are terms past the first 128, the pairwise
    sum never runs out of steps: more steps give the same order. *)
Lemma pairwise_sum_enough_fuel fuel : forall a more,
  (List.length a <= 128 + fuel)%nat ->
  pairwise_sum (fuel + more) a = pairwise_sum fuel a.
Proof.
  induction fuel as [|fuel IH]; intros a more Ha; rewrite !pairwise_sum_eq;
    destruct (Nat.ltb_spec (List.length a) 8); try reflexivity;
    destruct (Nat.leb_spec (List.length a) 128); try reflexivity; [lia|].
  cbn [Nat.add]. cbv zeta.
  set (n2 := (List.length a / 2 - (List.length a / 2) mod 8)%nat).
  assert (H2 : (List.length a <= n2 + n2 + 15)%nat).
  { unfold n2.
    pose proof (Nat.mod_upper_bound (List.length a / 2) 8).
    pose proof (Nat.div_mod_eq (List.length a) 2).
    pose proof (Nat.mod_upper_bound (List.length a) 2).
    lia. }
  assert (H3 : (n2 <= List.length a / 2)%nat) by (unfold n2; lia).
  pose proof (Nat.Div0.mul_div_le (List.length a) 2).
  rewrite !IH; [reflexivity| |].
  - rewrite length_skipn. lia.
  - rewrite length_firstn. lia.
Qed.



Section MeanAccuracy.
Context {S : Summation}.

End MeanAccuracy.

Section GenerationProperties.
Context {RS : RandomState} {AS : Argsort}.

Lemma argsort_of_increasing (keys : column) (s : Z) :
  (forall i, (i < List.length keys)%nat ->
             nth i keys NaN = Timestamp (Date (s + Z.of_nat i))) ->
  argsort keys = seq 0 (List.length keys).
Proof.
  intros Hk.
  pose proof (argsort_perm keys) as HP.
  pose proof (argsort_sorted keys) as HS.
  apply sorted_perm_unique; [|apply sorted_seq|exact HP].
  assert (Hin : forall i, In i (argsort keys) -> (i < List.length keys)%nat).
  { intros i Hi. eapply Permutation_in in Hi; [|exact HP].
    apply in_seq in Hi. lia. }
  unfold take in HS. clear HP. revert HS Hin.
  generalize (argsort keys) as p.
  induction p as [|i p IH]; intros HS Hin; [constructor|].
  simpl in HS. apply Sorted_inv in HS as [HS Hd].
  constructor.
  - apply IH; [assumption|]. intros j Hj. apply Hin. now right.
  - destruct p as [|j p']; constructor.
    simpl in Hd. apply HdRel_inv in Hd.
    rewrite (Hk i), (Hk j) in Hd by (apply Hin; simpl; auto).
    apply timestamp_leb in Hd. lia.
Qed.

Lemma dates_length n : List.length (dates n) = n.
Proof. unfold dates. now rewrite length_map, length_seq. Qed.

Lemma dates_nth n i :
  (i < n)%nat ->
  nth i (map Timestamp (dates n)) NaN
  = Timestamp (Date (ordinal start_date + Z.of_nat i)).
Proof.
  intros Hi. unfold dates. rewrite map_map.
  rewrite (nth_indep _ NaN
             (Timestamp (date_add start_date (timedelta (Z.of_nat 0)))))
    by (now rewrite length_map, length_seq).
  rewrite (map_nth (fun i => Timestamp (date_add start_date (timedelta (Z.of_nat i))))).
  rewrite seq_nth by assumption. reflexivity.
Qed.

Lemma data_columns_length n g :
  Forall (fun nc => List.length (snd nc) = n) (fst (data n g)).
Proof.
  unfold data; cbn [fst].
  repeat (apply Forall_cons; [cbn [snd]; rewrite length_map|]);
    try apply Forall_nil.
  - apply dates_length.
  - apply choice_length; discriminate.
  - apply choice_length; discriminate.
  - apply choice_length; discriminate.
  - apply randint_length; lia.
  - apply uniform_length; reflexivity.
  - apply uniform_length; reflexivity.
  - apply choice_length; discriminate.
  - apply uniform_length; reflexivity.
  - apply choice_length; discriminate.
Qed.

Lemma data_date_first n g :
  exists rest, fst (data n g) = ("Date", map Timestamp (dates n)) :: rest.
Proof. unfold data; cbn [fst]. eexists; reflexivity. Qed.


(** The frame is built, and sorting it by date changes nothing: the dates
    already increase. *)
Lemma generate_eq n g :
  generate n g = (Return (mkDataFrame (fst (data n g))), snd (data n g)).
Proof.
  unfold generate. f_equal.
  pose proof (data_columns_length n g) as HL.
  unfold pd_DataFrame. rewrite (same_length_of_Forall n) by exact HL.
  unfold sort_values, get_column; cbn [df_columns].
  destruct (data_date_first n g) as (rest & E). rewrite E at 1.
  cbn [lookup_column]. rewrite String.eqb_refl.
  rewrite comparable_timestamps.
  rewrite (argsort_of_increasing _ (ordinal start_date)).
  - rewrite length_map, dates_length. f_equal. f_equal.
    now apply map_take_all.
  - intros i Hi. rewrite length_map, dates_length in Hi. now apply dates_nth.
Qed.

Lemma generate_fst n g :
  fst (generate n g) = Return (mkDataFrame (fst (data n g))).
Proof. now rewrite generate_eq. Qed.

Lemma generate_snd n g : snd (generate n g) = snd (data n g).
Proof. reflexivity. Qed.

Lemma dates_sorted n :
  Sorted (fun a b => cell_leb a b = true) (map Timestamp (dates n)).
Proof.
  unfold dates. rewrite map_map.
  generalize (sorted_seq 0 n). generalize (seq 0 n) as l.
  induction l as [|i l IH]; intros HS; simpl; constructor;
    apply Sorted_inv in HS as [HS Hd].
  - now apply IH.
  - destruct l as [|j l']; simpl; constructor.
    apply HdRel_inv in Hd. apply timestamp_leb. unfold timedelta. lia.
Qed.

Lemma nrows_data n g : nrows (mkDataFrame (fst (data n g))) = n.
Proof.
  unfold nrows; cbn [df_columns].
  destruct (data_date_first n g) as (rest & ->).
  now rewrite length_map, dates_length.
Qed.

Lemma date_column_of_data n g :
  get_column "Date" (mkDataFrame (fst (data n g)))
  = Some (map Timestamp (dates n)).
Proof.
  unfold get_column; cbn [df_columns].
  destruct (data_date_first n g) as (rest & ->).
  cbn [lookup_column]. now rewrite String.eqb_refl.
Qed.

Lemma in_strings s (l : list string) : In s l -> existsb (String.eqb s) l = true.
Proof.
  intros H. apply existsb_exists. exists s. split; [assumption|apply String.eqb_refl].
Qed.

Lemma in_numbers q (l : list Q) : In q l -> existsb (Qeq_bool q) l = true.
Proof.
  intros H. apply existsb_exists. exists q. split; [assumption|].
  apply Qeq_bool_iff. reflexivity.
Qed.

Lemma rounded_conforms (low high : Z) d x :
  (inject_Z low <= x)%Q /\ (x < inject_Z high)%Q ->
  cell_conforms (float64_in low high d) (Float (np_round d x)) = true.
Proof.
  intros [Hl Hh]. simpl.
  destruct (np_round_bounds d low high x Hl (Qlt_le_weak _ _ Hh)) as [B1 B2].
  apply Qle_bool_iff in B1, B2. rewrite B1, B2, np_round_decimals. reflexivity.
Qed.

Lemma data_conforms n g : columns_conform (fst (data n g)) schema.
Proof.
  unfold data, schema, columns_conform; cbn [fst].
  repeat (apply Forall2_cons; [split; [reflexivity|]; cbn [snd]; intros c Hc;
                               apply in_map_iff in Hc as (x & <- & Hx)|]);
    try apply Forall2_nil.
  - reflexivity.
  - apply in_strings. eapply choice_In, Hx.
  - apply in_strings. eapply choice_In, Hx.
  - apply in_strings. eapply choice_In, Hx.
  - apply randint_range in Hx. simpl.
    apply andb_true_intro; split; apply Z.leb_le; lia.
  - apply rounded_conforms. eapply uniform_range; [reflexivity|exact Hx].
  - apply rounded_conforms. eapply uniform_range; [reflexivity|exact Hx].
  - apply in_numbers. eapply choice_In, Hx.
  - apply rounded_conforms. eapply uniform_range; [reflexivity|exact Hx].
  - apply in_strings. eapply choice_In, Hx.
Qed.

Lemma record_at_conforms cols s i :
  columns_conform cols s ->
  Forall (fun nc => (i < List.length (snd nc))%nat) cols ->
  record_conforms (map (fun nc => (fst nc, nth i (snd nc) NaN)) cols) s = true.
Proof.
  induction 1 as [|[name c] [name' t] cols s [Hn Hc] _ IH]; intros HL;
    simpl; [reflexivity|].
  apply Forall_cons_iff in HL as [Hi HL]. simpl in *.
  subst name'. rewrite String.eqb_refl, (IH HL), (Hc (nth i c NaN)).
  - reflexivity.
  - now apply nth_In.
Qed.

Lemma records_are_rows d r :
  In r (records d) -> exists i, (i < nrows d)%nat /\ r = record_at i d.
Proof.
  unfold records. rewrite in_map_iff. intros (i & <- & Hi).
  apply in_seq in Hi. exists i. split; [lia|reflexivity].
Qed.

(** C6: the generated frame has exactly [n] Records; the date of Record
    [i] is the epoch 2022-01-01 plus [i] days; read down the frame, the
    dates do not decrease. *)
Theorem generated_rows_and_dates n g :
  exists d,
    fst (generate n g) = Return d
    /\ nrows d = n
    /\ List.length (records d) = n
    /\ start_date = datetime 2022 1 1
    /\ (forall i, (i < n)%nat ->
          field "Date" (record_at i d)
          = Some (Timestamp (date_add start_date (timedelta (Z.of_nat i)))))
    /\ (exists column_of_dates,
          get_column "Date" d = Some column_of_dates
          /\ Sorted (fun a b => cell_leb a b = true) column_of_dates).
Proof.
  exists (mkDataFrame (fst (data n g))).
  rewrite generate_eq; cbn [fst].
  split; [reflexivity|]. split; [apply nrows_data|].
  split; [unfold records; now rewrite length_map, length_seq, nrows_data|].
  split; [reflexivity|]. split.
  - intros i Hi. unfold record_at; cbn [df_columns].
    destruct (data_date_first n g) as (rest & ->).
    cbn [map field fst snd]. rewrite String.eqb_refl.
    now rewrite dates_nth.
  - exists (map Timestamp (dates n)). split; [|apply dates_sorted].
    unfold get_column; cbn [df_columns].
    destruct (data_date_first n g) as (rest & ->).
    cbn [lookup_column]. now rewrite String.eqb_refl.
Qed.

(** C7: the generated frame has the ten declared columns, in order, and
    in every Record each field is present (no missing value) and of its
    column's type: a timestamp; a string of the column's enumeration; a
    year from 2015 to 2022; a number within the column's bounds with the
    column's number of decimals. *)
Theorem generated_records_conform n g :
  exists d,
    fst (generate n g) = Return d
    /\ column_names d = map fst schema
    /\ (forall r, In r (records d) ->
          map fst r = map fst schema /\ record_conforms r schema = true).
Proof.
  exists (mkDataFrame (fst (data n g))).
  rewrite generate_eq; cbn [fst].
  split; [reflexivity|]. split; [reflexivity|].
  intros r Hr. apply records_are_rows in Hr as (i & Hi & ->).
  rewrite nrows_data in Hi. unfold record_at; cbn [df_columns]. split.
  - rewrite map_map. reflexivity.
  - apply record_at_conforms; [apply data_conforms|].
    eapply Forall_impl; [|apply data_columns_length].
    intros nc Hn; simpl in Hn. lia.
Qed.



Section CaseSensitivity.
Context {S : Summation}.
Variable float_repr : Q -> string.
Variable pd_eval : string -> DataFrame -> outcome pyobj * DataFrame.

End CaseSensitivity.
End GenerationProperties.

(** ** Generation and the state of the generator *)

Section StateProperties.
Context {RS : RandomState} {AS : Argsort}.

(** Generation has one input besides the row count, the state of the
    generator: from the same state it builds the same frame and leaves the
    same state. *)
Lemma generate_same_state n (g1 g2 : rng) :
  g1 = g2 -> generate n g1 = generate n g2.
Proof. now intros ->. Qed.

(** The state is threaded through the nine draws in the order of the
    dict, and the state after the last draw is the one generation leaves. *)
Lemma generate_leaves_last_state n g :
  snd (generate n g) = snd (data n g).
Proof. reflexivity. Qed.

(** The Date column does not read the state: any two generations agree
    on it. *)
Lemma date_column_is_reproduced n (g1 g2 : rng) d1 d2 :
  fst (generate n g1) = Return d1 ->
  fst (generate n g2) = Return d2 ->
  get_column "Date" d1 = get_column "Date" d2
  /\ get_column "Date" d1 = Some (map Timestamp (dates n)).
Proof.
  rewrite !generate_eq.
  change (fst (Return (mkDataFrame (fst (data n g1))), snd (data n g1)))
    with (@Return DataFrame (mkDataFrame (fst (data n g1)))).
  change (fst (Return (mkDataFrame (fst (data n g2))), snd (data n g2)))
    with (@Return DataFrame (mkDataFrame (fst (data n g2)))).
  intros [= <-] [= <-]. split; reflexivity.
Qed.
End StateProperties.

(** ** The recorded run

    The generation with NumPy's generator, seed 42 and 1000 rows, against
    what the notebook printed in cell 5. *)

Section RecordedRun.
Context {AS : Argsort}.

Lemma recorded_frame_generated (g : mt19937) :
  fst (@generate numpy AS n_rows (@np_random_seed numpy 42 g))
  = Return recorded_frame.
Proof. unfold np_random_seed. now rewrite generate_eq. Qed.
End RecordedRun.

(** [df.head()]: the first five Records are the five printed rows. *)
Example recorded_head :
  firstn 5 (records recorded_frame) = records head_frame.
Proof. vm_compute. reflexivity. Qed.

(** [df.describe()]: count, mean, min and max of the numeric columns. *)
Example recorded_describe :
  describe "Year" recorded_frame = Some (1000%nat, Qred 2018.445, 2015, 2022)%Q
  /\ describe "Price" recorded_frame
     = Some (1000%nat, Qred 51145.3608, Qred 20026.57, Qred 79972.64)%Q
  /\ describe "Mileage" recorded_frame
     = Some (1000%nat, Qred 48484.643, 19, 99762)%Q
  /\ describe "EngineSize" recorded_frame
     = Some (1000%nat, Qred 2.7445, Qred 1.6, 4)%Q
  /\ describe "FuelEfficiency" recorded_frame
     = Some (1000%nat, Qred 29.6885, 20, 40)%Q.
Proof. vm_compute. repeat split; reflexivity. Qed.

(** Every Record of the recorded frame conforms to the schema, by
    computation. *)
Example recorded_records_conform :
  forallb (fun r => record_conforms r schema) (records recorded_frame) = true.
Proof. vm_compute. reflexivity. Qed.

(** The last of the notebook's 1000 dates is the maximum that cell 5
    printed, 2024-09-26. *)
Example last_date :
  date_add start_date (timedelta 999) = datetime 2024 9 26.
Proof. reflexivity. Qed.

(** C2: generation is a function of the seed and the row count.  Two
    generations that each start by seeding, whatever the state of the
    generator before and whichever sorting routine each of them uses,
    build the same frame, Record by Record in the same order, and leave
    the same state: the dates are distinct, so that sorting by date has
    one result.  With NumPy's generator, seed 42 and 1000 rows, that frame
    is the notebook's [df], and it is the frame whose first rows and
    statistics cell 5 printed. *)
Theorem generation_is_deterministic :
  (forall (RS : RandomState) (AS1 AS2 : Argsort) (seed : Z) (n : nat)
          (g1 g2 : rng),
      exists d,
        fst (@generate RS AS1 n (np_random_seed seed g1)) = Return d
        /\ fst (@generate RS AS2 n (np_random_seed seed g2)) = Return d
        /\ List.length (records d) = n
        /\ snd (@generate RS AS1 n (np_random_seed seed g1))
           = snd (@generate RS AS2 n (np_random_seed seed g2)))
  /\ (forall (AS : Argsort) (g : mt19937),
        exists d,
          @df numpy AS = Return d
          /\ fst (@generate numpy AS n_rows (@np_random_seed numpy 42 g)) = Return d
          /\ firstn 5 (records d) = records head_frame
          /\ describe "Year" d = Some (1000%nat, Qred 2018.445, 2015, 2022)%Q
          /\ describe "Price" d
             = Some (1000%nat, Qred 51145.3608, Qred 20026.57, Qred 79972.64)%Q
          /\ describe "Mileage" d = Some (1000%nat, Qred 48484.643, 19, 99762)%Q
          /\ describe "EngineSize" d = Some (1000%nat, Qred 2.7445, Qred 1.6, 4)%Q
          /\ describe "FuelEfficiency" d = Some (1000%nat, Qred 29.6885, 20, 40)%Q).
Proof.
  split.
  - intros RS AS1 AS2 seed n g1 g2.
    exists (mkDataFrame (fst (data n (seeded seed)))).
    unfold np_random_seed.
    rewrite (@generate_eq RS AS1), (@generate_eq RS AS2); cbn [fst snd].
    split; [reflexivity|]. split; [reflexivity|]. split; [|reflexivity].
    unfold records. now rewrite length_map, length_seq, nrows_data.
  - intros AS g. exists recorded_frame.
    split; [exact (@recorded_frame_generated AS (mt_seed 0))|].
    split; [apply recorded_frame_generated|].
    split; [exact recorded_head|exact recorded_describe].
Qed.

(** The three queries of the recorded run that succeeded, on the recorded
    frame: the tool returns what the agent's answers report (ten column
    names, 1,000 rows, an average price of about 51,145.36). *)
Example recorded_answers :
  let run query :=
    fst (df_query shortest_repr pandas_eval tool_context query
           (mkWorld [] recorded_frame)) in
  run "df.columns.tolist()"
  = Return "['Date', 'Make', 'Model', 'Color', 'Year', 'Price', 'Mileage', 'EngineSize', 'FuelEfficiency', 'SalesPerson']"
  /\ run "df.shape[0]" = Return "1000"
  /\ run "df['Price'].mean()" = Return "51145.360799999995".
Proof. vm_compute. repeat split; reflexivity. Qed.

(** The conversion of a float64 to a string, on numbers whose [repr] in
    Python is known. *)
Example shortest_repr_examples :
  map (fun x => shortest_repr (binary64 x))
      [0.1; 1 # 3; -2.5; 100; 2018.445; 57952.65; 1e15; 1e16; 0.0001; 0.000015;
       123456789012345678]%Q
  = ["0.1"; "0.3333333333333333"; "-2.5"; "100.0"; "2018.445"; "57952.65";
     "1000000000000000.0"; "1e+16"; "0.0001"; "1.5e-05";
     "1.2345678901234568e+17"]
  /\ shortest_repr (fadd (binary64 0.1) (binary64 0.2)) = "0.30000000000000004".
Proof. vm_compute. split; reflexivity. Qed.

(** The mean of the 1000 recorded prices: exactly 51145.3608; as a float64
    sum and division, one float64 below the float64 nearest to that number
    when the prices are added NumPy's way, and two below when they are
    added one after the other. *)
Example recorded_price_mean :
  option_map (fun c => Qred (exact_mean c)) (get_column "Price" recorded_frame)
  = Some (Qred 51145.3608)
  /\ option_map (@mean numpy_pairwise) (get_column "Price" recorded_frame)
     = Some (1757341215824963 # 34359738368)
  /\ option_map (@mean left_to_right) (get_column "Price" recorded_frame)
     = Some (7029364863299851 # 137438953472)
  /\ binary64 51145.3608 = 7029364863299853 # 137438953472
  /\ map shortest_repr
       [1757341215824963 # 34359738368; 7029364863299851 # 137438953472;
        7029364863299853 # 137438953472]
     = ["51145.360799999995"; "51145.36079999999"; "51145.3608"].
Proof. vm_compute. repeat split; reflexivity. Qed.



(** ** Running the generation again *)

Lemma cell_eqb_refl c : cell_eqb c c = true.
Proof.
  destruct c; simpl; auto using Z.eqb_refl, String.eqb_refl.
  apply Qeq_bool_iff. reflexivity.
Qed.

Lemma columns_differ_irrefl c : columns_differ c c = false.
Proof.
  unfold columns_differ. induction c as [|x c IH]; simpl; [reflexivity|].
  now rewrite cell_eqb_refl, IH.
Qed.

Lemma column_changed_neq name d1 d2 :
  column_changed name d1 d2 = true -> get_column name d1 <> get_column name d2.
Proof.
  unfold column_changed. intros H E. rewrite E in H.
  destruct (get_column name d2); [|discriminate].
  now rewrite columns_differ_irrefl in H.
Qed.

Lemma second_run_changes_columns :
  forallb (fun name => column_changed name recorded_frame second_frame)
          random_columns = true.
Proof. vm_compute. reflexivity. Qed.

Lemma first_run_position :
  mt_pos (snd (@data numpy n_rows (mt_seed 42))) = 269%nat.
Proof. vm_compute. reflexivity. Qed.

Lemma first_run_advances_state :
  snd (@data numpy n_rows (mt_seed 42)) <> mt_seed 42.
Proof.
  intros H. pose proof first_run_position as P. rewrite H in P.
  discriminate P.
Qed.

(** C10, as amended: generation has no seed parameter; it reads the
    global state of the generator and leaves it advanced.  Two generations
    build the same dataset if the state is the same at the start of each,
    as it is when each is preceded by [np.random.seed(42)].  With NumPy's
    generator, a second run of the notebook's generation that does not seed
    again starts from the state the first run left, which is not the seeded
    one, and builds a dataset whose nine drawn columns all differ from the
    first run's; the Date column is the same. *)
Theorem rerun_without_seeding_differs :
  (forall (RS : RandomState) (AS : Argsort) (n : nat) (g1 g2 : @rng RS),
      (g1 = g2 -> @generate RS AS n g1 = @generate RS AS n g2)
      /\ @generate RS AS n (np_random_seed 42 g1)
         = @generate RS AS n (np_random_seed 42 g2))
  /\ (forall (AS : Argsort) (g : mt19937),
        let first := @generate numpy AS n_rows (@np_random_seed numpy 42 g) in
        let second := @generate numpy AS n_rows (snd first) in
        snd first <> mt_seed 42
        /\ exists d1 d2,
             fst first = Return d1 /\ fst second = Return d2
             /\ get_column "Date" d1 = get_column "Date" d2
             /\ forallb (fun name => column_changed name d1 d2) random_columns = true
             /\ (forall name, In name random_columns ->
                   get_column name d1 <> get_column name d2)).
Proof.
  split.
  - intros RS AS n g1 g2. split; [now intros ->|reflexivity].
  - intros AS g. cbv zeta. unfold np_random_seed.
    change (@seeded numpy 42) with (mt_seed 42).
    rewrite (@generate_snd numpy AS), !(@generate_fst numpy AS).
    split; [exact first_run_advances_state|].
    exists recorded_frame, second_frame.
    split; [reflexivity|]. split; [reflexivity|].
    split.
    { unfold recorded_frame, second_frame.
      now rewrite !(@date_column_of_data numpy). }
    split; [exact second_run_changes_columns|].
    intros name Hin. apply column_changed_neq.
    pose proof second_run_changes_columns as H.
    rewrite forallb_forall in H. now apply H.
Qed.

(** C10 as stated fails in the other direction: the state also holds a
    Gaussian sample kept in reserve, which the generation never reads; two
    states that differ in it alone are different states and give the same
    dataset. *)
Lemma same_dataset_from_different_states :
  let g1 := mt_seed 42 in
  let g2 := mkMT (mt_key g1) (mt_pos g1) true (1 # 2) in
  g1 <> g2
  /\ fst (@generate numpy insertion_sort n_rows g1)
     = fst (@generate numpy insertion_sort n_rows g2).
Proof.
  cbv zeta. split.
  - intros H. apply (f_equal has_gauss) in H. discriminate H.
  - rewrite !(@generate_fst numpy insertion_sort).
    assert (E : fst (@data numpy n_rows (mt_seed 42))
                = fst (@data numpy n_rows
                         (mkMT (mt_key (mt_seed 42)) (mt_pos (mt_seed 42))
                               true (1 # 2))))
      by (vm_compute; reflexivity).
    now rewrite E.
Qed.

(** * Further properties *)

(** ** The environment *)

Lemma getenv_putenv_same key value env :
  getenv key (putenv key value env) = Some value.
Proof.
  induction env as [|[k v] rest IH]; simpl.
  - now rewrite String.eqb_refl.
  - destruct (String.eqb k key) eqn:E; simpl; rewrite E; [reflexivity|exact IH].
Qed.

Lemma getenv_putenv_other key other value env :
  other <> key -> getenv other (putenv key value env) = getenv other env.
Proof.
  intros Hne. induction env as [|[k v] rest IH]; simpl.
  - destruct (String.eqb_spec key other); [congruence|reflexivity].
  - destruct (String.eqb_spec k key) as [->|Hk]; simpl.
    + destruct (String.eqb_spec key other); [congruence|reflexivity].
    + destruct (String.eqb k other); [reflexivity|exact IH].
Qed.

(** Setting a variable to the value it has changes nothing. *)
Lemma putenv_same_value key value env :
  getenv key env = Some value -> putenv key value env = env.
Proof.
  induction env as [|[k v] rest IH]; simpl; [discriminate|].
  destruct (String.eqb k key); [now intros [= ->]|].
  intros H. now rewrite IH.
Qed.

Section EnvironmentProperties.
Variable load_dotenv : environ -> environ.

Lemma load_environment_raises env :
  getenv OPENAI_API_KEY (load_dotenv env) = None ->
  load_environment load_dotenv env
  = (Raise (Exn TypeError "str expected, not NoneType" None), load_dotenv env).
Proof. intros H. unfold load_environment. now rewrite H. Qed.

Lemma load_environment_returns env value :
  getenv OPENAI_API_KEY (load_dotenv env) = Some value ->
  load_environment load_dotenv env
  = (Return tt, putenv LOGFIRE_IGNORE_NO_CONFIG "1" (load_dotenv env)).
Proof.
  intros H. unfold load_environment, environ_setitem. rewrite H.
  now rewrite (putenv_same_value _ _ _ H).
Qed.

(** X1: when the API key is in neither the process environment nor the
    .env file, the assignment [os.environ['OPENAI_API_KEY'] = None] raises
    a TypeError; the cell stops there, so the environment is as
    [load_dotenv] left it and LOGFIRE_IGNORE_NO_CONFIG is not set by the
    cell. *)
Theorem load_environment_without_key env :
  getenv OPENAI_API_KEY (load_dotenv env) = None ->
  (exists message,
      fst (load_environment load_dotenv env) = Raise (Exn TypeError message None))
  /\ snd (load_environment load_dotenv env) = load_dotenv env
  /\ getenv LOGFIRE_IGNORE_NO_CONFIG (snd (load_environment load_dotenv env))
     = getenv LOGFIRE_IGNORE_NO_CONFIG (load_dotenv env).
Proof.
  intros H. rewrite (load_environment_raises env H); cbn [fst snd].
  split; [eexists; reflexivity|]. split; reflexivity.
Qed.

(** X2: when the API key has a value after [load_dotenv], the cell ends
    normally; the key keeps that value, LOGFIRE_IGNORE_NO_CONFIG is '1',
    and every other variable is as [load_dotenv] left it. *)
Theorem load_environment_with_key env value :
  getenv OPENAI_API_KEY (load_dotenv env) = Some value ->
  let env' := snd (load_environment load_dotenv env) in
  fst (load_environment load_dotenv env) = Return tt
  /\ getenv OPENAI_API_KEY env' = Some value
  /\ getenv LOGFIRE_IGNORE_NO_CONFIG env' = Some "1"
  /\ (forall name, name <> LOGFIRE_IGNORE_NO_CONFIG ->
        getenv name env' = getenv name (load_dotenv env)).
Proof.
  intros H env'. unfold env'.
  rewrite (load_environment_returns env value H); cbn [fst snd].
  split; [reflexivity|]. split.
  - rewrite getenv_putenv_other; [exact H|discriminate].
  - split; [apply getenv_putenv_same|].
    intros name Hn. now apply getenv_putenv_other.
Qed.
End EnvironmentProperties.

(** X1 where the .env file names the key without a value and the process
    environment does not have it. *)
Lemma load_environment_without_key_witness :
  let load := dotenv_load [("OPENAI_API_KEY", None)] in
  let env := [("HOME", "/root")] in
  getenv OPENAI_API_KEY (load env) = None
  /\ (exists message,
        fst (load_environment load env) = Raise (Exn TypeError message None))
  /\ snd (load_environment load env) = load env
  /\ getenv LOGFIRE_IGNORE_NO_CONFIG (snd (load_environment load env))
     = getenv LOGFIRE_IGNORE_NO_CONFIG (load env).
Proof.
  cbv zeta. split; [reflexivity|].
  apply (load_environment_without_key
           (dotenv_load [("OPENAI_API_KEY", None)]) [("HOME", "/root")]).
  reflexivity.
Defined.

(** X2 where the key comes from the .env file. *)
Lemma load_environment_with_key_witness :
  let load := dotenv_load [("OPENAI_API_KEY", Some "sk-test")] in
  let env := [("HOME", "/root")] in
  let env' := snd (load_environment load env) in
  getenv OPENAI_API_KEY (load env) = Some "sk-test"
  /\ fst (load_environment load env) = Return tt
  /\ getenv OPENAI_API_KEY env' = Some "sk-test"
  /\ getenv LOGFIRE_IGNORE_NO_CONFIG env' = Some "1"
  /\ (forall name, name <> LOGFIRE_IGNORE_NO_CONFIG ->
        getenv name env' = getenv name (load env)).
Proof.
  cbv zeta. split; [reflexivity|].
  apply (load_environment_with_key
           (dotenv_load [("OPENAI_API_KEY", Some "sk-test")]) [("HOME", "/root")]
           "sk-test").
  reflexivity.
Defined.

(** ** The driver *)

Section DriverEffects.
Variable run_sync : string -> Deps.t -> World -> outcome RunResult * World.

(** The driver writes nothing to the frame: it is as the run left it. *)
Lemma ask_agent_frame question w :
  frame (snd (ask_agent run_sync question w))
  = frame (snd (run_sync question (Deps.mk global_df)
                  (print ("Question: " ++ question) w))).
Proof.
  unfold ask_agent.
  destruct (run_sync question (Deps.mk global_df)
              (print ("Question: " ++ question) w)) as [[response|e] w2];
    cbn [fst snd]; [|reflexivity].
  destruct (last_content response); reflexivity.
Qed.

(** X5: the driver and the loop over the questions never touch the frame
    themselves: a property of the frame that every agent run preserves
    still holds after any list of questions, also when one of them
    raises. *)
Theorem ask_questions_keeps_frame_invariants (P : DataFrame -> Prop) :
  (forall question d w,
      P (frame w) -> P (frame (snd (run_sync question d w)))) ->
  forall questions w,
    P (frame w) -> P (frame (snd (ask_questions run_sync questions w))).
Proof.
  intros Hrun questions.
  induction questions as [|question rest IH]; intros w Hw; simpl; [exact Hw|].
  assert (Hq : P (frame (snd (ask_agent run_sync question w))))
    by (rewrite ask_agent_frame; apply Hrun; exact Hw).
  destruct (ask_agent run_sync question w) as [[[]|e] w']; cbn [snd] in *.
  - now apply IH.
  - exact Hq.
Qed.

End DriverEffects.

(** X5 for the three questions of cell 10, a run that answers without
    calling the tool, and the property of being the five recorded rows. *)
Lemma ask_questions_keeps_frame_invariants_witness :
  (forall question d w,
      frame w = head_frame ->
      frame (snd (answering_run question d w)) = head_frame)
  /\ frame (snd (ask_questions answering_run example_questions head_world))
     = head_frame.
Proof.
  assert (H : forall question d w,
             frame w = head_frame ->
             frame (snd (answering_run question d w)) = head_frame)
    by (intros question d w Hw; exact Hw).
  split; [exact H|].
  apply (ask_questions_keeps_frame_invariants answering_run
           (fun d => d = head_frame) H example_questions head_world).
  reflexivity.
Defined.

(** ** The generated frame, further *)

Lemma timestamp_inj a b :
  Some (Timestamp (Date a)) = Some (Timestamp (Date b)) -> a = b.
Proof. now intros [= H]. Qed.

Section GeneratedFrame.
Context {RS : RandomState} {AS : Argsort}.

Lemma date_field_of_data n g i :
  (i < n)%nat ->
  field "Date" (record_at i (mkDataFrame (fst (data n g))))
  = Some (Timestamp (Date (ordinal start_date + Z.of_nat i))).
Proof.
  intros Hi. unfold record_at; cbn [df_columns].
  destruct (data_date_first n g) as (rest & ->).
  cbn [map field fst snd]. rewrite String.eqb_refl.
  now rewrite dates_nth.
Qed.

(** X7: in the generated frame the date is a key: two Records with the
    same Date are the same Record, and no Date occurs twice. *)
Theorem date_identifies_the_record n g :
  exists d,
    fst (generate n g) = Return d
    /\ (forall i j, (i < n)%nat -> (j < n)%nat ->
          field "Date" (record_at i d) = field "Date" (record_at j d) -> i = j)
    /\ NoDup (map (field "Date") (records d)).
Proof.
  exists (mkDataFrame (fst (data n g))).
  split; [apply generate_fst|].
  assert (K : forall i j, (i < n)%nat -> (j < n)%nat ->
              field "Date" (record_at i (mkDataFrame (fst (data n g))))
              = field "Date" (record_at j (mkDataFrame (fst (data n g)))) ->
              i = j).
  { intros i j Hi Hj. rewrite !date_field_of_data by assumption.
    intros E. apply timestamp_inj, Z.add_reg_l in E. now apply Nat2Z.inj. }
  split; [exact K|].
  unfold records. rewrite nrows_data, map_map.
  apply Finite.Injective_map_NoDup_in; [|apply seq_NoDup].
  intros i j Hi Hj. apply in_seq in Hi, Hj. apply K; lia.
Qed.

(** X8: [pd.DataFrame(data)] succeeds on the generated columns, and
    [sort_values('Date')] gives that frame back as it is, whichever sorting
    routine pandas uses: the dates are built in increasing order. *)
Theorem sorting_by_date_changes_nothing n g :
  exists d,
    pd_DataFrame (fst (data n g)) = Return d
    /\ sort_values "Date" d = Return d
    /\ fst (generate n g) = pd_DataFrame (fst (data n g)).
Proof.
  exists (mkDataFrame (fst (data n g))).
  assert (E : pd_DataFrame (fst (data n g)) = Return (mkDataFrame (fst (data n g)))).
  { unfold pd_DataFrame.
    now rewrite (same_length_of_Forall n) by apply data_columns_length. }
  split; [exact E|].
  pose proof (generate_fst n g) as G.
  unfold generate in G. change (fst (?a, ?b)) with a in G.
  split.
  - rewrite E in G. exact G.
  - rewrite E. apply generate_fst.
Qed.

Lemma year_field_of_data n g i :
  field "Year" (record_at i (mkDataFrame (fst (data n g))))
  = Some (nth i (map Int (fst (randint 2015 2023 n
            (snd (choice colors n (snd (choice models n (snd (choice makes n g))))))))) NaN).
Proof. reflexivity. Qed.

Lemma first_of_january_2015_2022 year :
  2015 <= year < 2023 -> ymd2ord year 1 1 <= ordinal start_date.
Proof.
  intros H.
  assert (C : year = 2015 \/ year = 2016 \/ year = 2017 \/ year = 2018
              \/ year = 2019 \/ year = 2020 \/ year = 2021 \/ year = 2022) by lia.
  repeat (destruct C as [->|C]; [vm_compute; discriminate|]).
  subst. vm_compute; discriminate.
Qed.

(** X9: in every generated Record the model year is an integer whose
    1 January is not after the sale date, and the sale date is one of the
    [n] days that start on 2022-01-01: no car is sold before its model
    year begins. *)
Theorem model_year_not_after_sale n g :
  exists d,
    fst (generate n g) = Return d
    /\ forall i, (i < n)%nat ->
         exists year sold,
           field "Year" (record_at i d) = Some (Int year)
           /\ field "Date" (record_at i d) = Some (Timestamp (Date sold))
           /\ ymd2ord year 1 1 <= sold < ymd2ord 2022 1 1 + Z.of_nat n.
Proof.
  exists (mkDataFrame (fst (data n g))).
  split; [apply generate_fst|].
  intros i Hi.
  rewrite year_field_of_data, date_field_of_data by exact Hi.
  set (years := fst (randint 2015 2023 n _)).
  assert (Hlen : List.length years = n) by (apply randint_length; lia).
  assert (Hin : In (nth i years 0) years) by (apply nth_In; lia).
  apply randint_range in Hin.
  exists (nth i years 0), (ordinal start_date + Z.of_nat i).
  split.
  - rewrite (nth_indep _ NaN (Int 0)) by (rewrite length_map; lia).
    now rewrite (map_nth Int).
  - split; [reflexivity|].
    pose proof (first_of_january_2015_2022 _ Hin) as Hy.
    change (ymd2ord 2022 1 1) with (ordinal start_date). lia.
Qed.
End GeneratedFrame.
